(** * aospy.io: labels, archive file names and time selection

    A shallow embedding of the label and file-name helpers of
    [aospy/io.py] ([_ens_label], [_yr_label], [_time_label],
    [_month_indices], [_get_time], [nc_name_gfdl]) together with the
    Python built-ins they rely on, followed by the properties of the
    interval resolver, the date-range labeller, the GFDL file namer and
    the time-index selector. *)

From Stdlib Require Import ZArith List String Ascii Bool Lia.
From Stdlib Require Import DecimalString Sorted Permutation Arith.
Import ListNotations.

Local Open Scope string_scope.
Local Open Scope Z_scope.

(** ** Python values, exceptions and results *)

Module Py.

(** The exceptions the embedded functions can raise. *)
Inductive exc : Type :=
| TypeError
| ValueError
| IndexError
| AssertionError
| UnboundLocalError
| ZeroDivisionError.

(** A call either returns a value or raises. *)
Inductive result (A : Type) : Type :=
| Ok (a : A)
| Raise (e : exc).

Arguments Ok {A} a.
Arguments Raise {A} e.

Definition bind {A B : Type} (r : result A) (k : A -> result B) : result B :=
  match r with
  | Ok a => k a
  | Raise e => Raise e
  end.

(** The dynamically typed arguments of the labellers.  Integers are
    unbounded; byte strings are [string]; lists and tuples hold integers
    (month numbers, year pairs), which is what the callers pass.  NumPy
    arrays, whose comparison with a string is decided by NumPy, are not
    among the values. *)
Inductive val : Type :=
| PyNone
| PyBool (b : bool)
| PyInt (z : Z)
| PyStr (s : string)
| PyList (l : list Z)
| PyTuple (l : list Z).

(** [x == y] *)
Definition eqb (x y : val) : bool :=
  match x, y with
  | PyNone, PyNone => true
  | PyBool a, PyBool b => Bool.eqb a b
  | PyBool a, PyInt z | PyInt z, PyBool a => (if a then 1 else 0) =? z
  | PyInt a, PyInt b => a =? b
  | PyStr a, PyStr b => String.eqb a b
  | PyList a, PyList b => if list_eq_dec Z.eq_dec a b then true else false
  | PyTuple a, PyTuple b => if list_eq_dec Z.eq_dec a b then true else false
  | _, _ => false
  end.

(** [x in (a, b, ...)] *)
Definition in_tuple (x : val) (t : list val) : bool :=
  existsb (eqb x) t.

(** [bool(x)] *)
Definition truthy (x : val) : bool :=
  match x with
  | PyNone => false
  | PyBool b => b
  | PyInt z => negb (z =? 0)
  | PyStr s => negb (String.eqb s "")
  | PyList l | PyTuple l => match l with [] => false | _ => true end
  end.

(** [str(n)] for an integer. *)
Definition str (n : Z) : string :=
  NilZero.string_of_int (Z.to_int n).

Fixpoint replicate (n : nat) (c : ascii) : string :=
  match n with
  | O => EmptyString
  | S k => String c (replicate k c)
  end.

(** ['{:0wd}'.format(n)]: sign-aware zero padding to total width [w]. *)
Definition format_0d (w : nat) (n : Z) : string :=
  let digits := str (Z.abs n) in
  if n <? 0
  then String "-" (replicate (w - 1 - String.length digits) "0" ++ digits)
  else replicate (w - String.length digits) "0" ++ digits.

Definition format_04d : Z -> string := format_0d 4.
Definition format_02 : Z -> string := format_0d 2.

(** [sep.join(l)] *)
Fixpoint join (sep : string) (l : list string) : string :=
  match l with
  | [] => ""
  | [x] => x
  | x :: tl => x ++ sep ++ join sep tl
  end.

(** [range(a, b)], as the list of its elements. *)
Definition range (a b : Z) : list Z :=
  map (fun i => a + Z.of_nat i) (seq 0 (Z.to_nat (b - a))).

(** [x in range(a, b)] for an integer [x]. *)
Definition in_range (x a b : Z) : bool := (a <=? x) && (x <? b).

(** [c.lower()] on one byte, and [s.lower()]. *)
Definition lower_char (c : ascii) : ascii :=
  let n := nat_of_ascii c in
  if (65 <=? n)%nat && (n <=? 90)%nat then ascii_of_nat (n + 32) else c.

Fixpoint lower (s : string) : string :=
  match s with
  | EmptyString => EmptyString
  | String c tl => String (lower_char c) (lower tl)
  end.

(** [s.find(sub)]: lowest index at which [sub] starts in [s], or -1. *)
Fixpoint find_from (sub s : string) (i : nat) : option nat :=
  if prefix sub s then Some i
  else match s with
       | EmptyString => None
       | String _ tl => find_from sub tl (S i)
       end.

Definition find (s sub : string) : Z :=
  match find_from sub s 0 with
  | Some i => Z.of_nat i
  | None => -1
  end.

(** [sub in s] for strings. *)
Definition contains (s sub : string) : bool := 0 <=? find s sub.

(** [set(a) == set(b)] for two sequences of integers. *)
Definition subset (a b : list Z) : bool :=
  forallb (fun x => existsb (Z.eqb x) b) a.

Definition set_eqb (a b : list Z) : bool := subset a b && subset b a.

(** [seq[i]] for a non-negative literal index [i]. *)
Definition getitem (l : list Z) (i : nat) : result Z :=
  match nth_error l i with
  | Some x => Ok x
  | None => Raise IndexError
  end.

End Py.

Import Py.

Notation "x <- c ;; k" := (bind c (fun x => k))
  (at level 61, c at next level, right associativity).

(** ** aospy/io.py *)

(** [_ens_label(ens_mem)] *)
Definition _ens_label (ens_mem : val) : result string :=
  if in_tuple ens_mem [PyNone; PyBool false] then Ok ""
  else if eqb ens_mem (PyStr "avg") then Ok "ens_mean"
  else match ens_mem with
       | PyInt k => Ok ("mem" ++ str (k + 1))
       | PyBool b => Ok ("mem" ++ str ((if b then 1 else 0) + 1))
       | _ => Raise TypeError
       end.

(** [_yr_label(yr_range)].  Subscripting [None], a bool or an int is a
    [TypeError]; a string yields characters, which ['{:04d}'] rejects. *)
Definition _yr_label (yr_range : val) : result string :=
  match yr_range with
  | PyNone => Raise AssertionError
  | PyList l | PyTuple l =>
      y0 <- getitem l 0 ;;
      y1 <- getitem l 1 ;;
      if y0 =? y1 then Ok (format_04d y0)
      else Ok (format_04d y0 ++ "-" ++ format_04d y1)
  | PyStr s =>
      if (String.length s <? 2)%nat then Raise IndexError
      else Raise ValueError
  | PyBool _ | PyInt _ => Raise TypeError
  end.

(** The season table of [_time_label], in the order it is written. *)
Definition labels : list (string * list Z) :=
  [ ("jfm", [1; 2; 3]);   ("fma", [2; 3; 4]);    ("mam", [3; 4; 5]);
    ("amj", [4; 5; 6]);   ("mjj", [5; 6; 7]);    ("jja", [6; 7; 8]);
    ("jas", [7; 8; 9]);   ("aso", [8; 9; 10]);   ("son", [9; 10; 11]);
    ("ond", [10; 11; 12]); ("ndj", [11; 12; 1]); ("djf", [1; 2; 12]);
    ("jjas", [6; 7; 8; 9]); ("djfm", [12; 1; 2; 3]);
    ("ann", range 1 13) ].

(** The loop test [intvl == lbl or set(intvl) == set(vals)].  The set
    of the characters of a string equals a set of integers only when
    both are empty; [set] of [None], a bool or an int raises. *)
Definition label_match (intvl : val) (lbl : string) (vals : list Z)
  : result bool :=
  if eqb intvl (PyStr lbl) then Ok true
  else match intvl with
       | PyStr s =>
           Ok ((String.length s =? 0)%nat && (List.length vals =? 0)%nat)
       | PyList l | PyTuple l => Ok (set_eqb l vals)
       | PyNone | PyBool _ | PyInt _ => Raise TypeError
       end.

(** The [for ... break] loop: the binding of [label, value] it leaves,
    [None] when no entry matched. *)
Fixpoint label_loop (intvl : val) (items : list (string * list Z))
  : result (option (string * list Z)) :=
  match items with
  | [] => Ok None
  | (lbl, vals) :: tl =>
      m <- label_match intvl lbl vals ;;
      if m then Ok (Some (lbl, vals)) else label_loop intvl tl
  end.

(** The [if / elif / else] of [_time_label] over a given table. *)
Definition time_label_bind (items : list (string * list Z)) (intvl : val)
  : result (option (string * list Z)) :=
  match intvl with
  | PyList [m] | PyTuple [m] => Ok (Some (format_02 m, [m]))
  | PyInt m =>
      if in_range m 1 13 then Ok (Some (format_02 m, [m]))
      else label_loop intvl items
  | _ => label_loop intvl items
  end.

(** What [_time_label] returns: [label, value] or [label] alone. *)
Inductive time_label_ret : Type :=
| LabelValue (label : string) (value : list Z)
| LabelOnly (label : string).

(** [_time_label(intvl, return_val)] *)
Definition _time_label (intvl : val) (return_val : bool)
  : result time_label_ret :=
  b <- time_label_bind labels intvl ;;
  match b with
  | None => Raise UnboundLocalError
  | Some (label, value) =>
      if return_val then Ok (LabelValue label value)
      else Ok (LabelOnly label)
  end.

(** ['jfmamjjasond'*2] *)
Fixpoint str_mul (s : string) (n : nat) : string :=
  match n with
  | O => ""
  | S k => s ++ str_mul s k
  end.

Definition first_letter : string := str_mul "jfmamjjasond" 2.

(** [_month_indices(months, iterable)] *)
Definition _month_indices (months : val) (iterable : bool) : result val :=
  match months with
  | PyInt m => if iterable then Ok (PyList [m]) else Ok (PyInt m)
  | PyStr s =>
      if String.eqb (lower s) "ann" then Ok (PyList (range 1 13))
      else
        let st_ind := find first_letter (lower s) + 1 in
        Ok (PyList (range st_ind (st_ind + Z.of_nat (String.length s))))
  | _ => Raise AssertionError
  end.

(** A decoded timestamp; only its year and month are inspected. *)
Record date : Type := mkdate { year : Z; month : Z }.

(** What [_get_time] returns, by the [indices] argument. *)
Inductive get_time_ret (T : Type) : Type :=
| Inds (inds : list nat)
| IndsAndValues (inds : list nat) (values : list T)
| Values (values : list T).

Arguments Inds {T} inds.
Arguments IndsAndValues {T} inds values.
Arguments Values {T} values.

Section GetTime.

(** Raw time values and the decoder [netCDF4.num2date], which is not
    part of the repository.  The time variable is read as the list of
    its values, [time[:]]. *)
Variable T : Type.
Variable num2date : list T -> string -> string -> result (list date).

(** [enumerate(l)] *)
Fixpoint enumerate_from {A : Type} (i : nat) (l : list A)
  : list (nat * A) :=
  match l with
  | [] => []
  | x :: tl => (i, x) :: enumerate_from (S i) tl
  end.

Definition enumerate {A : Type} (l : list A) : list (nat * A) :=
  enumerate_from 0 l.

(** The filter of the comprehension. *)
Definition selected (start_yr end_yr : Z) (months : list Z) (d : date)
  : bool :=
  existsb (Z.eqb (month d)) months
  && in_range (year d) start_yr (end_yr + 1).

(** The values of the time variable at the indices [inds], one after
    the other; an index past the end is an [IndexError]. *)
Fixpoint take_values (time : list T) (inds : list nat) : result (list T) :=
  match inds with
  | [] => Ok []
  | i :: tl =>
      match nth_error time i with
      | Some x => rest <- take_values time tl ;; Ok (x :: rest)
      | None => Raise IndexError
      end
  end.

(** [time[inds]] on the netCDF4 variable, with a list of indices.  The
    variable rejects an empty list of indices with an [IndexError]. *)
Definition take_inds (time : list T) (inds : list nat) : result (list T) :=
  match inds with
  | [] => Raise IndexError
  | _ :: _ => take_values time inds
  end.

(** [_get_time(time, units, calendar, start_yr, end_yr, months, indices)] *)
Definition _get_time (time : list T) (units calendar : string)
    (start_yr end_yr : Z) (months : list Z) (indices : val)
  : result (get_time_ret T) :=
  dates <- num2date time units (lower calendar) ;;
  let inds :=
    map fst (filter (fun p => selected start_yr end_yr months (snd p))
                    (enumerate dates)) in
  if eqb indices (PyStr "only") then Ok (Inds inds)
  else if truthy indices then
    values <- take_inds time inds ;; Ok (IndsAndValues inds values)
  else
    values <- take_inds time inds ;; Ok (Values values).

End GetTime.

Arguments enumerate {A} l.
Arguments enumerate_from {A} i l.
Arguments take_values {T} time inds.
Arguments take_inds {T} time inds.
Arguments _get_time {T} num2date time units calendar start_yr end_yr
  months indices.

(** [a % b] on integers. *)
Definition py_mod (a b : Z) : result Z :=
  if b =? 0 then Raise ZeroDivisionError else Ok (a mod b).

(** The first two statements of [nc_name_gfdl]: the starting year of
    the file that holds [data_yr]. *)
Definition nc_yr_of (data_yr nc_start_yr nc_dur : Z) : result Z :=
  extra_yrs <- py_mod (data_yr - nc_start_yr) nc_dur ;;
  Ok (data_yr - extra_yrs).

(** [x in (a, b, ...)] for strings. *)
Definition str_in (x : string) (l : list string) : bool :=
  existsb (String.eqb x) l.

(** The [label] bound by the time-averaged branch, [None] if unbound. *)
Definition av_label (intvl_type : string) (intvl : val)
  : result (option string) :=
  if str_in intvl_type ["annual"; "ann"] then Ok (Some "ann")
  else if str_in intvl_type ["seasonal"; "seas"] then
    (* label = label.upper() reads [label] before it is bound *)
    Raise UnboundLocalError
  else if str_in intvl_type ["monthly"; "mon"] then
    r <- _time_label intvl true ;;
    match r with
    | LabelValue label _ => Ok (Some label)
    | LabelOnly _ => Raise TypeError
    end
  else Ok None.

(** [nc_name_gfdl(name, domain, data_type, intvl_type, data_yr, intvl,
    nc_start_yr, nc_dur)] *)
Definition nc_name_gfdl (name domain data_type intvl_type : string)
    (data_yr : Z) (intvl : val) (nc_start_yr nc_dur : Z) : result string :=
  nc_yr <- nc_yr_of data_yr nc_start_yr nc_dur ;;
  gfdl_file <-
    (if str_in data_type ["ts"; "inst"] then
       if String.eqb intvl_type "annual" then
         if nc_dur =? 1 then
           Ok (Some (join "." [domain; format_04d nc_yr; name; "nc"]))
         else
           Ok (Some (domain ++ "." ++ format_04d nc_yr
                     ++ "-" ++ format_04d (nc_yr + nc_dur - 1)
                     ++ "." ++ name ++ ".nc"))
       else if String.eqb intvl_type "monthly" then
         Ok (Some (domain ++ "." ++ format_04d nc_yr ++ "01-"
                   ++ format_04d (nc_yr + nc_dur - 1)
                   ++ "12." ++ name ++ ".nc"))
       else if String.eqb intvl_type "daily" then
         Ok (Some (domain ++ "." ++ format_04d nc_yr ++ "0101-"
                   ++ format_04d (nc_yr + nc_dur - 1)
                   ++ "1231." ++ name ++ ".nc"))
       else if contains intvl_type "hr" then
         Ok (Some (join "." [domain;
                             format_04d nc_yr ++ "010100-"
                             ++ format_04d (nc_yr + nc_dur - 1) ++ "123123";
                             name; "nc"]))
       else Ok None
     else if String.eqb data_type "av" then
       l <- av_label intvl_type intvl ;;
       match l with
       | None => Raise UnboundLocalError
       | Some label =>
           if nc_dur =? 1 then
             Ok (Some (domain ++ "." ++ format_04d nc_yr
                       ++ "." ++ label ++ ".nc"))
           else
             Ok (Some (domain ++ "." ++ format_04d nc_yr ++ "-"
                       ++ format_04d (nc_yr + nc_dur - 1)
                       ++ "." ++ label ++ ".nc"))
       end
     else if String.eqb data_type "av_ts" then
       Ok (Some (domain ++ "." ++ format_04d nc_yr ++ "-"
                 ++ format_04d (nc_yr + nc_dur - 1) ++ ".01-12.nc"))
     else Ok None) ;;
  match gfdl_file with
  | None => Raise UnboundLocalError
  | Some f => Ok f
  end.

(** [l * n] for a list. *)
Definition list_mul {A : Type} (l : list A) (n : Z) : list A :=
  List.concat (List.repeat l (Z.to_nat n)).

(** The first argument of [to_dup_list]: a list, or any other value. *)
Inductive dup_arg (A : Type) : Type :=
| NotList (a : A)
| IsList (l : list A).

Arguments NotList {A} a.
Arguments IsList {A} l.

(** [to_dup_list(x, n, single_to_list)] *)
Definition to_dup_list {A : Type} (x : dup_arg A) (n : Z)
    (single_to_list : bool) : result (dup_arg A) :=
  match x with
  | IsList l =>
      if Z.of_nat (List.length l) =? n then Ok (IsList l)
      else if (List.length l =? 1)%nat then Ok (IsList (list_mul l n))
      else Raise ValueError
  | NotList a =>
      if n =? 1 then
        if single_to_list then Ok (IsList [a]) else Ok (NotList a)
      else Ok (IsList (list_mul [a] n))
  end.

(** [s.replace(old, new)]: the occurrences of [old] are replaced from
    the left, without overlap; [skip] counts the characters of an
    occurrence still to be dropped. *)
Fixpoint replace_from (old new : string) (skip : nat) (s : string)
  : string :=
  match s with
  | EmptyString =>
      match old with EmptyString => new | String _ _ => EmptyString end
  | String c tl =>
      match skip with
      | S k => replace_from old new k tl
      | O =>
          if prefix old s then
            match old with
            | EmptyString => new ++ String c (replace_from old new 0 tl)
            | String _ o => new ++ replace_from old new (String.length o) tl
            end
          else String c (replace_from old new 0 tl)
      end
  end.

Definition replace (s old new : string) : string :=
  replace_from old new 0 s.

(** [_data_in_label(intvl_in, dtype_in_time, dtype_in_vert)].  Joining
    a value that is not a string raises. *)
Definition _data_in_label (intvl_in dtype_in_time : string)
    (dtype_in_vert : val) : result string :=
  let lbl :=
    replace (join "_" ["from"; intvl_in; dtype_in_time]) "__" "_" in
  if truthy dtype_in_vert then
    match dtype_in_vert with
    | PyStr vert_lbl => Ok (replace (join "_" [lbl; vert_lbl]) "__" "_")
    | _ => Raise TypeError
    end
  else Ok lbl.

(** [_data_out_label(time_intvl, dtype_time, dtype_vert)] *)
Definition _data_out_label (time_intvl : val) (dtype_time : string)
    (dtype_vert : val) : result string :=
  r <- _time_label time_intvl false ;;
  match r with
  | LabelValue _ _ => Raise TypeError
  | LabelOnly intvl_lbl =>
      let lbl := replace (join "." [intvl_lbl; dtype_time]) ".." "." in
      if truthy dtype_vert then
        match dtype_vert with
        | PyStr vert_lbl => Ok (replace (join "." [lbl; vert_lbl]) ".." ".")
        | _ => Raise TypeError
        end
      else Ok lbl
  end.

(** [s.split(c)] for a one-character separator. *)
Fixpoint split_on (c : ascii) (s : string) : list string :=
  match s with
  | EmptyString => [""]
  | String x tl =>
      if Ascii.eqb x c then "" :: split_on c tl
      else match split_on c tl with
           | h :: t => String x h :: t
           | [] => [String x ""]
           end
  end.

(** [s[n:]] *)
Fixpoint drop (n : nat) (s : string) : string :=
  match n, s with
  | O, _ => s
  | S k, EmptyString => EmptyString
  | S k, String _ tl => drop k tl
  end.

(** [s.partition(sep)[2]]: what follows the first occurrence of [sep],
    the empty string when there is none; an empty separator raises. *)
Definition partition_after (s sep : string) : result string :=
  match sep with
  | EmptyString => Raise ValueError
  | String _ _ =>
      match find_from sep s 0 with
      | Some i => Ok (drop (i + String.length sep) s)
      | None => Ok ""
      end
  end.

(** [[f(x) for x in l]] for an [f] that may raise. *)
Fixpoint map_result {A B : Type} (f : A -> result B) (l : list A)
  : result (list B) :=
  match l with
  | [] => Ok []
  | x :: tl => y <- f x ;; rest <- map_result f tl ;; Ok (y :: rest)
  end.

(** [hsmget_nc] as Python 2 runs it.  The function calls
    [string.join], which only the [string] module of Python 2 has; on
    Python 3 every call fails on that attribute, with an
    [AttributeError], before any argument is looked at.  Nothing in
    this module holds of the function on Python 3. *)
Module Python2.

(** The archive root [hsmget_nc] derives from the first file, by
    [string.join(first.split('/')[:3], '/') + '/']: its first three
    components, with a slash after them. *)
Definition arch_loc_of (file : string) : string :=
  join "/" (firstn 3 (split_on "/" file)) ++ "/".

(** The command line [hsmget_nc(files_list)] runs, with the value of
    the environment variable USER. *)
Definition hsmget_nc_args (user : string) (files_list : list string)
  : result (list string) :=
  let workdir := "/work/" ++ user in
  let ptmpdir := "/ptmp/" ++ user in
  match files_list with
  | [] => Raise IndexError
  | first :: _ =>
      let arch_loc := arch_loc_of first in
      files <- map_result (fun f => partition_after f arch_loc) files_list ;;
      Ok (["hsmget"; "-a"; arch_loc; "-p"; workdir; "-w"; ptmpdir]
            ++ files ++ ["-q"])%list
  end.

End Python2.

(** ** Vocabulary of the statements *)

(** The decimal digit [d] as a character. *)
Definition digit (d : Z) : ascii := ascii_of_nat (48 + Z.to_nat d).

(** A year in 0..9999 written with exactly four digits. *)
Definition four_digits (y : Z) : string :=
  String (digit (y / 1000))
    (String (digit (y / 100 mod 10))
       (String (digit (y / 10 mod 10))
          (String (digit (y mod 10)) ""))).

(** A month written with exactly two digits. *)
Definition two_digits (m : Z) : string :=
  String (digit (m / 10)) (String (digit (m mod 10)) "").

(** Two sequences hold the same set of integers. *)
Definition same_set (a b : list Z) : Prop := forall x, In x a <-> In x b.

(** [intvl] resolves to [label] and [value], with or without the
    value being asked for. *)
Definition resolves (intvl : val) (label : string) (value : list Z) : Prop :=
  _time_label intvl true = Ok (LabelValue label value)
  /\ _time_label intvl false = Ok (LabelOnly label).

(** [sub] occurs in [t] at offset [k], and does so first at [k]. *)
Definition occurs_at (t sub : string) (k : nat) : Prop :=
  substring k (String.length sub) t = sub.

Definition first_occurrence (t sub : string) (k : nat) : Prop :=
  occurs_at t sub k /\ forall j, (j < k)%nat -> ~ occurs_at t sub j.

(** The [n] consecutive integers from [a] on. *)
Fixpoint consecutive (a : Z) (n : nat) : list Z :=
  match n with
  | O => []
  | S k => a :: consecutive (a + 1) k
  end.

(** [intvl] is one of the interval specifiers the resolver is meant
    for: a month number, alone or as the single element of a sequence;
    a season code or a sequence with the months of one; annual or
    ann. *)
Definition resolvable (intvl : val) : Prop :=
  (exists m, 1 <= m <= 12
             /\ (intvl = PyInt m \/ intvl = PyList [m] \/ intvl = PyTuple [m]))
  \/ (exists code vals,
        In (code, vals) labels
        /\ (intvl = PyStr code
            \/ exists l, same_set l vals
                         /\ (intvl = PyList l \/ intvl = PyTuple l)))
  \/ intvl = PyStr "annual"
  \/ intvl = PyStr "ann".

(** A decoder for worked examples: time values counted in months
    since January of year 0. *)
Definition months_since_year0 (time : list Z) (units calendar : string)
  : result (list date) :=
  Ok (map (fun t => mkdate (t / 12) (t mod 12 + 1)) time).

(** The month an index stands for once the year wraps around: 13 is
    January again. *)
Definition wrap_month (i : Z) : Z := (i - 1) mod 12 + 1.

(** The initial of the month an index stands for. *)
Definition month_initial (i : Z) : option ascii :=
  get (Z.to_nat (wrap_month i - 1)) "jfmamjjasond".

(** The pair (data type, interval type) reaches no assignment of the
    file name in [nc_name_gfdl]. *)
Definition no_branch (data_type intvl_type : string) : Prop :=
  ~ In data_type ["ts"; "inst"; "av"; "av_ts"]
  \/ (In data_type ["ts"; "inst"]
      /\ ~ In intvl_type ["annual"; "monthly"; "daily"]
      /\ contains intvl_type "hr" = false)
  \/ (data_type = "av"
      /\ ~ In intvl_type ["annual"; "ann"; "monthly"; "mon"]).

(** The data type and interval type select a naming branch of
    [nc_name_gfdl], and the interval resolves where the branch asks
    for its label. *)
Definition names_file (data_type intvl_type : string) (intvl : val) : Prop :=
  (In data_type ["ts"; "inst"]
   /\ (In intvl_type ["annual"; "monthly"; "daily"]
       \/ exists k, occurs_at intvl_type "hr" k))
  \/ (data_type = "av"
      /\ (In intvl_type ["annual"; "ann"]
          \/ (In intvl_type ["monthly"; "mon"]
              /\ exists label value,
                   _time_label intvl true = Ok (LabelValue label value))))
  \/ data_type = "av_ts".

(** [s] starts with the character [c]; ends with it; has it nowhere
    twice in a row. *)
Definition starts_with (c : ascii) (s : string) : bool :=
  match s with
  | EmptyString => false
  | String x _ => Ascii.eqb x c
  end.

Fixpoint ends_with (c : ascii) (s : string) : bool :=
  match s with
  | EmptyString => false
  | String x EmptyString => Ascii.eqb x c
  | String _ tl => ends_with c tl
  end.

Fixpoint no_double (c : ascii) (s : string) : bool :=
  match s with
  | EmptyString => true
  | String x tl => negb (Ascii.eqb x c && starts_with c tl) && no_double c tl
  end.

(** The character [c] occurs nowhere in [s]. *)
Fixpoint lacks (c : ascii) (s : string) : bool :=
  match s with
  | EmptyString => true
  | String x tl => negb (Ascii.eqb x c) && lacks c tl
  end.

(** A label component that leaves the separator [c] alone: not empty,
    no separator at either end, none doubled. *)
Definition tidy (c : ascii) (s : string) : bool :=
  negb (String.eqb s "") && negb (starts_with c s)
  && negb (ends_with c s) && no_double c s.

(** The timestamp [d] lies in the requested years and months. *)
Definition in_interval (start_yr end_yr : Z) (months : list Z) (d : date)
  : Prop :=
  start_yr <= year d <= end_yr /\ In (month d) months.

(** ** Formatting *)

Lemma checked_below (P : Z -> bool) (n : Z) :
  forallb P (map Z.of_nat (seq 0 (Z.to_nat n))) = true ->
  forall y, 0 <= y < n -> P y = true.
Proof.
  intros Hall y Hy.
  rewrite forallb_forall in Hall.
  apply Hall, in_map_iff.
  exists (Z.to_nat y); split; [lia | apply in_seq; lia].
Qed.

Lemma format_04d_four_digits (y : Z) :
  0 <= y <= 9999 -> format_04d y = four_digits y.
Proof.
  intros Hy.
  apply String.eqb_eq.
  apply (checked_below (fun z => String.eqb (format_04d z) (four_digits z))
           10000); [vm_compute; reflexivity | lia].
Qed.

Lemma format_02_two_digits (m : Z) :
  0 <= m <= 99 -> format_02 m = two_digits m.
Proof.
  intros Hm.
  apply String.eqb_eq.
  apply (checked_below (fun z => String.eqb (format_02 z) (two_digits z))
           100); [vm_compute; reflexivity | lia].
Qed.

(** ** File start year *)

Lemma nc_yr_of_pos (data_yr nc_start_yr nc_dur : Z) :
  nc_dur <> 0 ->
  nc_yr_of data_yr nc_start_yr nc_dur
  = Ok (data_yr - (data_yr - nc_start_yr) mod nc_dur).
Proof.
  intros Hd. unfold nc_yr_of, py_mod.
  destruct (Z.eqb_spec nc_dur 0); [contradiction | reflexivity].
Qed.

Lemma nc_yr_of_zero (data_yr nc_start_yr : Z) :
  nc_yr_of data_yr nc_start_yr 0 = Raise ZeroDivisionError.
Proof. reflexivity. Qed.

(** C2, as stated, fails below the archive start: year 0 of an archive
    that starts in year 1 with 5-year files is put in the file starting
    at year -4, which is before the archive start. *)
Lemma file_start_year_before_archive_start :
  0 < 5
  /\ nc_yr_of 0 1 5 = Ok (-4)
  /\ ~ (1 <= -4 <= 0).
Proof. repeat split; try reflexivity; lia. Qed.

(** C2 (amended): for every data year, archive start year and positive
    duration the file start year is returned, is at most the data year,
    is less than one duration below it and is a whole number of
    durations away from the archive start; it is at or after the
    archive start whenever the data year is. *)
Theorem file_start_year_bucketing (data_yr nc_start_yr nc_dur : Z) :
  0 < nc_dur ->
  exists nc_yr,
    nc_yr_of data_yr nc_start_yr nc_dur = Ok nc_yr
    /\ nc_yr <= data_yr
    /\ data_yr - nc_yr < nc_dur
    /\ (nc_yr - nc_start_yr) mod nc_dur = 0
    /\ (nc_start_yr <= data_yr -> nc_start_yr <= nc_yr).
Proof.
  intros Hd.
  exists (data_yr - (data_yr - nc_start_yr) mod nc_dur).
  pose proof (Z.mod_pos_bound (data_yr - nc_start_yr) nc_dur Hd) as Hb.
  split; [apply nc_yr_of_pos; lia |].
  repeat split; try lia.
  - replace (data_yr - (data_yr - nc_start_yr) mod nc_dur - nc_start_yr)
      with (nc_dur * ((data_yr - nc_start_yr) / nc_dur)).
    + rewrite Z.mul_comm. apply Z.mod_mul. lia.
    + pose proof (Z.div_mod (data_yr - nc_start_yr) nc_dur). lia.
  - intros Hs.
    assert ((data_yr - nc_start_yr) mod nc_dur <= data_yr - nc_start_yr)
      by (apply Z.mod_le; lia).
    lia.
Qed.

Lemma file_start_year_bucketing_witness :
  exists nc_yr,
    nc_yr_of 23 1 5 = Ok nc_yr
    /\ nc_yr <= 23
    /\ 23 - nc_yr < 5
    /\ (nc_yr - 1) mod 5 = 0
    /\ (1 <= 23 -> 1 <= nc_yr).
Proof. apply (file_start_year_bucketing 23 1 5). lia. Defined.

(** ** File names *)

(** C1: for the time-series and instantaneous data types with annual
    intervals, a duration above one year gives
    domain.YYYY-YYYY.name.nc from the file start year to the last year
    of the file, a duration of one year gives domain.YYYY.name.nc, each
    year in 0..9999 being written with exactly four digits; for domain
    atmos, duration 5, archive start 1 and data year 21 the name is
    atmos.0021-0025.name.nc. *)
Theorem nc_name_gfdl_ts_annual
    (name domain data_type : string) (data_yr : Z) (intvl : val)
    (nc_start_yr nc_dur : Z) :
  data_type = "ts" \/ data_type = "inst" ->
  (1 < nc_dur ->
   exists nc_yr,
     nc_yr_of data_yr nc_start_yr nc_dur = Ok nc_yr
     /\ nc_name_gfdl name domain data_type "annual" data_yr intvl
          nc_start_yr nc_dur
        = Ok (domain ++ "." ++ format_04d nc_yr ++ "-"
              ++ format_04d (nc_yr + nc_dur - 1) ++ "." ++ name ++ ".nc"))
  /\ (nc_dur = 1 ->
      nc_name_gfdl name domain data_type "annual" data_yr intvl
        nc_start_yr nc_dur
      = Ok (domain ++ "." ++ format_04d data_yr ++ "." ++ name ++ ".nc"))
  /\ nc_name_gfdl name "atmos" data_type "annual" 21 intvl 1 5
     = Ok ("atmos.0021-0025." ++ name ++ ".nc")
  /\ nc_name_gfdl name "atmos" data_type "annual" 21 intvl 1 1
     = Ok ("atmos.0021." ++ name ++ ".nc")
  /\ (forall y, 0 <= y <= 9999 -> format_04d y = four_digits y).
Proof.
  intros Hty.
  assert (Hin : str_in data_type ["ts"; "inst"] = true)
    by (destruct Hty; subst; reflexivity).
  repeat split.
  - intros Hd.
    exists (data_yr - (data_yr - nc_start_yr) mod nc_dur).
    split; [apply nc_yr_of_pos; lia |].
    unfold nc_name_gfdl.
    rewrite nc_yr_of_pos by lia. cbn [bind].
    rewrite Hin. cbn [String.eqb Ascii.eqb Bool.eqb].
    destruct (Z.eqb_spec nc_dur 1); [lia | reflexivity].
  - intros ->.
    unfold nc_name_gfdl.
    rewrite nc_yr_of_pos by lia. cbn [bind].
    rewrite Hin, Z.mod_1_r, Z.sub_0_r. reflexivity.
  - unfold nc_name_gfdl. cbn [nc_yr_of py_mod Z.eqb bind].
    rewrite Hin. reflexivity.
  - unfold nc_name_gfdl. cbn [nc_yr_of py_mod Z.eqb bind].
    rewrite Hin. reflexivity.
  - apply format_04d_four_digits.
Qed.

Lemma nc_name_gfdl_ts_annual_witness :
  nc_name_gfdl "t_surf" "atmos" "ts" "annual" 23 PyNone 1 5
  = Ok "atmos.0021-0025.t_surf.nc"
  /\ nc_name_gfdl "olr" "atmos" "inst" "annual" 1983 PyNone 1980 1
     = Ok "atmos.1983.olr.nc".
Proof.
  split.
  - destruct (nc_name_gfdl_ts_annual "t_surf" "atmos" "ts" 23 PyNone 1 5
                (or_introl eq_refl)) as [H _].
    destruct (H ltac:(lia)) as [nc_yr [Hy Hn]].
    vm_compute in Hy. injection Hy as <-. exact Hn.
  - destruct (nc_name_gfdl_ts_annual "olr" "atmos" "inst" 1983 PyNone 1980 1
                (or_intror eq_refl)) as [_ [H _]].
    exact (H eq_refl).
Defined.

(** ** Year labels *)

(** C4, as stated, fails on a reversed range: the pair (2010, 1981) is
    labelled, not rejected. *)
Lemma yr_label_reversed_range_returns :
  1981 < 2010
  /\ _yr_label (PyTuple [2010; 1981]) = Ok "2010-1981"
  /\ ~ (exists e, _yr_label (PyTuple [2010; 1981]) = Raise e).
Proof.
  split; [lia | split; [reflexivity |]].
  intros [e He]. discriminate He.
Qed.

(** C4 (amended): the label of a pair of equal years is the year
    zero-padded to four digits, and the label of any pair of different
    years, in either order, is the two padded years joined by a dash;
    so 1981, 1981 gives 1981 and 1981, 2010 gives 1981-2010; no check
    of the order of the two years is made. *)
Theorem yr_label_format (y0 y1 : Z) :
  (y0 = y1 ->
   _yr_label (PyTuple [y0; y1]) = Ok (format_04d y0)
   /\ _yr_label (PyList [y0; y1]) = Ok (format_04d y0))
  /\ (y0 <> y1 ->
      _yr_label (PyTuple [y0; y1])
      = Ok (format_04d y0 ++ "-" ++ format_04d y1)
      /\ _yr_label (PyList [y0; y1])
         = Ok (format_04d y0 ++ "-" ++ format_04d y1))
  /\ (0 <= y0 <= 9999 -> format_04d y0 = four_digits y0)
  /\ _yr_label (PyTuple [1981; 1981]) = Ok "1981"
  /\ _yr_label (PyTuple [1981; 2010]) = Ok "1981-2010".
Proof.
  repeat split; try reflexivity.
  - subst y1. cbn. now rewrite Z.eqb_refl.
  - subst y1. cbn. now rewrite Z.eqb_refl.
  - cbn. destruct (Z.eqb_spec y0 y1); [contradiction | reflexivity].
  - cbn. destruct (Z.eqb_spec y0 y1); [contradiction | reflexivity].
  - apply format_04d_four_digits.
Qed.

Lemma yr_label_format_witness :
  _yr_label (PyTuple [1979; 1995]) = Ok "1979-1995"
  /\ _yr_label (PyList [21; 21]) = Ok "0021".
Proof.
  split.
  - destruct (yr_label_format 1979 1995) as [_ [H _]].
    destruct H as [H _]; [lia | exact H].
  - destruct (yr_label_format 21 21) as [H _].
    destruct (H eq_refl) as [_ H']. exact H'.
Defined.

(** ** Ensemble labels *)

Lemma ens_label_none_false_avg :
  _ens_label PyNone = Ok ""
  /\ _ens_label (PyBool false) = Ok ""
  /\ _ens_label (PyStr "avg") = Ok "ens_mean".
Proof. repeat split. Qed.

Lemma ens_label_nonzero_member (k : Z) :
  k <> 0 -> _ens_label (PyInt k) = Ok ("mem" ++ str (k + 1)).
Proof.
  intros Hk. destruct k; [contradiction | reflexivity | reflexivity].
Qed.

(** C5: member 0 is not labelled mem1: it compares equal to [False]
    and takes the branch of the absent member, so the label is
    empty. *)
Theorem ens_label_member_zero :
  _ens_label (PyInt 0) = Ok ""
  /\ _ens_label (PyInt 0) <> Ok ("mem" ++ str (0 + 1)).
Proof. split; [reflexivity | discriminate]. Qed.

(** ** The time-interval resolver *)

Lemma subset_spec (a b : list Z) :
  subset a b = true <-> forall x, In x a -> In x b.
Proof.
  unfold subset. rewrite forallb_forall.
  split; intros H x Hx.
  - apply H in Hx. apply existsb_exists in Hx.
    destruct Hx as [y [Hy Heq]]. apply Z.eqb_eq in Heq. now subst.
  - apply existsb_exists. exists x. split; [auto | apply Z.eqb_refl].
Qed.

Lemma set_eqb_spec (a b : list Z) : set_eqb a b = true <-> same_set a b.
Proof.
  unfold set_eqb, same_set.
  rewrite andb_true_iff, !subset_spec.
  split.
  - intros [Hab Hba] x. split; auto.
  - intros H. split; intros x; apply H.
Qed.

Lemma set_eqb_same_set (a a' v : list Z) :
  same_set a a' -> set_eqb a v = set_eqb a' v.
Proof.
  intros Ha.
  destruct (set_eqb a v) eqn:E, (set_eqb a' v) eqn:E'; try reflexivity.
  - apply set_eqb_spec in E.
    assert (set_eqb a' v = true) as E2
      by (apply set_eqb_spec; intros x; rewrite <- (Ha x); apply E).
    congruence.
  - apply set_eqb_spec in E'.
    assert (set_eqb a v = true) as E2
      by (apply set_eqb_spec; intros x; rewrite (Ha x); apply E').
    congruence.
Qed.

(** On a sequence the loop is a search for the first entry with the
    same set of months. *)
Lemma label_loop_list (l : list Z) (items : list (string * list Z)) :
  label_loop (PyList l) items
  = Ok (List.find (fun p => set_eqb l (snd p)) items).
Proof.
  induction items as [| [lbl vals] tl IH]; [reflexivity |].
  cbn. destruct (set_eqb l vals); [reflexivity | exact IH].
Qed.

Lemma label_loop_tuple (l : list Z) (items : list (string * list Z)) :
  label_loop (PyTuple l) items
  = Ok (List.find (fun p => set_eqb l (snd p)) items).
Proof.
  induction items as [| [lbl vals] tl IH]; [reflexivity |].
  cbn. destruct (set_eqb l vals); [reflexivity | exact IH].
Qed.

(** On a string the loop is a search for the entry with that code, as
    long as no entry has an empty month tuple. *)
Lemma label_loop_str (s : string) (items : list (string * list Z)) :
  (forall p, In p items -> snd p <> []) ->
  label_loop (PyStr s) items
  = Ok (List.find (fun p => String.eqb s (fst p)) items).
Proof.
  induction items as [| [lbl vals] tl IH]; intros Hne; [reflexivity |].
  cbn [label_loop List.find fst snd]. unfold label_match. cbn [eqb].
  destruct (String.eqb s lbl); [reflexivity |].
  assert (vals <> []) as Hv by (apply (Hne (lbl, vals)); now left).
  destruct vals as [| v vs]; [contradiction |].
  cbn [List.length Nat.eqb]. rewrite andb_false_r. cbn [bind]. apply IH.
  intros p Hp. apply Hne. now right.
Qed.

Lemma labels_unfold :
  labels =
  [ ("jfm", [1; 2; 3]);   ("fma", [2; 3; 4]);    ("mam", [3; 4; 5]);
    ("amj", [4; 5; 6]);   ("mjj", [5; 6; 7]);    ("jja", [6; 7; 8]);
    ("jas", [7; 8; 9]);   ("aso", [8; 9; 10]);   ("son", [9; 10; 11]);
    ("ond", [10; 11; 12]); ("ndj", [11; 12; 1]); ("djf", [1; 2; 12]);
    ("jjas", [6; 7; 8; 9]); ("djfm", [12; 1; 2; 3]);
    ("ann", [1; 2; 3; 4; 5; 6; 7; 8; 9; 10; 11; 12]) ].
Proof. reflexivity. Qed.

Lemma labels_nonempty (p : string * list Z) : In p labels -> snd p <> [].
Proof.
  rewrite labels_unfold. cbn [In].
  intros H; repeat (destruct H as [<- | H]; [discriminate |]).
  contradiction.
Qed.

(** Every month tuple of the table holds two different months. *)
Lemma labels_two_months (code : string) (vals : list Z) :
  In (code, vals) labels ->
  exists a b, a <> b /\ In a vals /\ In b vals.
Proof.
  rewrite labels_unfold. cbn [In].
  intros H;
    repeat (destruct H as [H | H];
            [injection H as <- <-;
             match goal with
             | |- exists a b, _ /\ In a (?x :: ?y :: _) /\ _ =>
                 exists x, y; cbn [In]; repeat split; auto; discriminate
             end |]).
  contradiction.
Qed.

(** Every entry of the table is found by its own code and by its own
    month tuple. *)
Lemma labels_self (code : string) (vals : list Z) :
  In (code, vals) labels ->
  resolves (PyStr code) code vals
  /\ resolves (PyList vals) code vals
  /\ resolves (PyTuple vals) code vals.
Proof.
  rewrite labels_unfold. cbn [In].
  intros H;
    repeat (destruct H as [H | H];
            [injection H as <- <-; repeat split; reflexivity |]).
  contradiction.
Qed.

Lemma not_singleton (l : list Z) (a b : Z) :
  a <> b -> In a l -> In b l -> forall m, l <> [m].
Proof.
  intros Hab Ha Hb m ->. cbn in Ha, Hb. intuition congruence.
Qed.

Lemma time_label_list_loop (l : list Z) (rv : bool) :
  (forall m, l <> [m]) ->
  _time_label (PyList l) rv
  = (b <- label_loop (PyList l) labels ;;
     match b with
     | None => Raise UnboundLocalError
     | Some (label, value) =>
         if rv then Ok (LabelValue label value) else Ok (LabelOnly label)
     end)
  /\ _time_label (PyTuple l) rv
     = (b <- label_loop (PyTuple l) labels ;;
        match b with
        | None => Raise UnboundLocalError
        | Some (label, value) =>
            if rv then Ok (LabelValue label value) else Ok (LabelOnly label)
        end).
Proof.
  intros Hl. unfold _time_label, time_label_bind.
  destruct l as [| a [| b tl]]; try (split; reflexivity).
  exfalso. now apply (Hl a).
Qed.

(** A sequence resolves as any other sequence with the same set of
    months does, single-element sequences apart. *)
Lemma time_label_same_set (l v : list Z) (rv : bool) :
  same_set l v ->
  (exists a b, a <> b /\ In a v /\ In b v) ->
  _time_label (PyList l) rv = _time_label (PyList v) rv
  /\ _time_label (PyTuple l) rv = _time_label (PyTuple v) rv.
Proof.
  intros Hs [a [b [Hab [Ha Hb]]]].
  assert (forall m, v <> [m]) as Hv by (now apply (not_singleton v a b)).
  assert (forall m, l <> [m]) as Hl
    by (apply (not_singleton l a b); [assumption | now apply Hs ..]).
  destruct (time_label_list_loop l rv Hl) as [-> ->].
  destruct (time_label_list_loop v rv Hv) as [-> ->].
  rewrite !label_loop_list, !label_loop_tuple.
  assert (List.find (fun p : string * list Z => set_eqb l (snd p)) labels
          = List.find (fun p => set_eqb v (snd p)) labels) as ->.
  { generalize labels. intros items.
    induction items as [| p tl IH]; [reflexivity |].
    cbn. rewrite (set_eqb_same_set l v (snd p) Hs), IH. reflexivity. }
  split; reflexivity.
Qed.

Lemma time_label_month (m : Z) (rv : bool) :
  1 <= m <= 12 ->
  _time_label (PyInt m) rv
  = Ok (if rv then LabelValue (two_digits m) [m] else LabelOnly (two_digits m))
  /\ _time_label (PyList [m]) rv = _time_label (PyInt m) rv
  /\ _time_label (PyTuple [m]) rv = _time_label (PyInt m) rv.
Proof.
  intros Hm. unfold _time_label, time_label_bind, in_range.
  replace (1 <=? m) with true by (symmetry; apply Z.leb_le; lia).
  replace (m <? 13) with true by (symmetry; apply Z.ltb_lt; lia).
  cbn [andb bind].
  rewrite format_02_two_digits by lia.
  destruct rv; repeat split; reflexivity.
Qed.

(** C3: every month number 1..12, alone or as the single element of a
    list or tuple, resolves to its two-digit label and to itself as the
    only month; every season code of the table resolves to itself and
    to its month tuple, and so does every list or tuple holding exactly
    the months of that code, in any order and with repetitions; ann
    resolves to ann and the months 1..12. *)
Theorem time_label_well_formed :
  (forall m, 1 <= m <= 12 ->
     resolves (PyInt m) (two_digits m) [m]
     /\ resolves (PyList [m]) (two_digits m) [m]
     /\ resolves (PyTuple [m]) (two_digits m) [m])
  /\ (forall code vals, In (code, vals) labels ->
        resolves (PyStr code) code vals
        /\ forall l, same_set l vals ->
             resolves (PyList l) code vals
             /\ resolves (PyTuple l) code vals)
  /\ resolves (PyStr "ann") "ann" [1; 2; 3; 4; 5; 6; 7; 8; 9; 10; 11; 12].
Proof.
  split; [| split].
  - intros m Hm. unfold resolves.
    destruct (time_label_month m true Hm) as [Ht [-> ->]].
    destruct (time_label_month m false Hm) as [Hf [-> ->]].
    rewrite Ht, Hf. repeat split.
  - intros code vals Hin.
    destruct (labels_self code vals Hin) as [Hstr [Hlist Htuple]].
    split; [exact Hstr |].
    intros l Hl. unfold resolves in *.
    pose proof (labels_two_months code vals Hin) as H2.
    destruct (time_label_same_set l vals true Hl H2) as [-> ->].
    destruct (time_label_same_set l vals false Hl H2) as [-> ->].
    tauto.
  - split; reflexivity.
Qed.

Lemma time_label_well_formed_witness :
  resolves (PyInt 7) "07" [7]
  /\ resolves (PyList [12]) "12" [12]
  /\ resolves (PyStr "djf") "djf" [1; 2; 12]
  /\ resolves (PyTuple [12; 1; 2]) "djf" [1; 2; 12]
  /\ resolves (PyList [3; 2; 1; 12; 12]) "djfm" [12; 1; 2; 3].
Proof.
  destruct time_label_well_formed as [Hm [Hc _]].
  assert (same_set [12; 1; 2] [1; 2; 12]) as S1
    by (intros x; cbn; intuition auto).
  assert (same_set [3; 2; 1; 12; 12] [12; 1; 2; 3]) as S2
    by (intros x; cbn; intuition auto).
  assert (In ("djf", [1; 2; 12]) labels) as I1
    by (rewrite labels_unfold; cbn; intuition auto).
  assert (In ("djfm", [12; 1; 2; 3]) labels) as I2
    by (rewrite labels_unfold; cbn; intuition auto).
  refine (conj (proj1 (Hm 7 _))
            (conj (proj1 (proj2 (Hm 12 _)))
               (conj (proj1 (Hc _ _ I1))
                  (conj (proj2 (proj2 (Hc _ _ I1) _ S1))
                        (proj1 (proj2 (Hc _ _ I2) _ S2)))))); lia.
Defined.

Lemma find_absent {A : Type} (f : A -> bool) (l : list A) :
  (forall x, In x l -> f x = false) -> List.find f l = None.
Proof.
  intros H. destruct (List.find f l) as [x |] eqn:E; [| reflexivity].
  apply find_some in E. destruct E as [Hin Hf].
  rewrite (H x Hin) in Hf. discriminate.
Qed.

(** A string that is no code of the table leaves the label unbound. *)
Lemma time_label_unknown_string (s : string) (rv : bool) :
  (forall code vals, In (code, vals) labels -> s <> code) ->
  _time_label (PyStr s) rv = Raise UnboundLocalError.
Proof.
  intros Hs. unfold _time_label, time_label_bind.
  rewrite (label_loop_str s labels labels_nonempty).
  rewrite find_absent; [reflexivity |].
  intros [code vals] Hin. cbn [fst].
  apply String.eqb_neq. now apply (Hs code vals).
Qed.

(** A sequence of other than one element with the months of no entry
    leaves the label unbound. *)
Lemma time_label_unknown_months (l : list Z) (rv : bool) :
  (forall m, l <> [m]) ->
  (forall code vals, In (code, vals) labels -> ~ same_set l vals) ->
  _time_label (PyList l) rv = Raise UnboundLocalError
  /\ _time_label (PyTuple l) rv = Raise UnboundLocalError.
Proof.
  intros Hl Hs.
  destruct (time_label_list_loop l rv Hl) as [-> ->].
  rewrite label_loop_list, label_loop_tuple.
  rewrite find_absent; [split; reflexivity |].
  intros [code vals] Hin. cbn [snd].
  destruct (set_eqb l vals) eqn:E; [| reflexivity].
  apply set_eqb_spec in E. now apply Hs in Hin.
Qed.

(** Apart from single-element sequences, every specifier outside the
    supported ones makes the call raise. *)
Lemma time_label_unresolved_fails (intvl : val) (rv : bool) :
  ~ resolvable intvl ->
  (forall m, intvl <> PyList [m] /\ intvl <> PyTuple [m]) ->
  _time_label intvl rv = Raise TypeError
  \/ _time_label intvl rv = Raise UnboundLocalError.
Proof.
  intros Hnr Hone.
  destruct intvl as [| b | z | s | l | l].
  - left; reflexivity.
  - left; reflexivity.
  - left. unfold _time_label, time_label_bind.
    destruct (in_range z 1 13) eqn:E; [| reflexivity].
    exfalso. apply Hnr. left. exists z.
    unfold in_range in E. apply andb_true_iff in E. destruct E as [E1 E2].
    apply Z.leb_le in E1. apply Z.ltb_lt in E2.
    split; [lia | now left].
  - right. apply time_label_unknown_string.
    intros code vals Hin ->. apply Hnr.
    right; left. exists code, vals. split; [assumption | now left].
  - right. apply time_label_unknown_months.
    + intros m ->. destruct (Hone m) as [H _]. now apply H.
    + intros code vals Hin Hs. apply Hnr.
      right; left. exists code, vals. split; [assumption |].
      right. exists l. split; [assumption | now left].
  - right. apply time_label_unknown_months.
    + intros m ->. destruct (Hone m) as [_ H]. now apply H.
    + intros code vals Hin Hs. apply Hnr.
      right; left. exists code, vals. split; [assumption |].
      right. exists l. split; [assumption | now right].
Qed.

(** C6: a single-element list escapes the check of the month range
    that a bare integer gets: 13 alone raises, but the list holding 13,
    which is no supported specifier, is given the label 13. *)
Theorem time_label_single_element_unchecked :
  ~ resolvable (PyList [13])
  /\ _time_label (PyInt 13) true = Raise TypeError
  /\ _time_label (PyList [13]) true = Ok (LabelValue "13" [13])
  /\ _time_label (PyList [13]) false = Ok (LabelOnly "13").
Proof.
  split; [| repeat split].
  intros [[m [Hm H]] | [[code [vals [Hin H]]] | [H | H]]];
    try discriminate H.
  - destruct H as [H | [H | H]]; try discriminate H.
    injection H as <-. lia.
  - destruct H as [H | [l [Hs [H | H]]]]; try discriminate H.
    injection H as <-.
    destruct (labels_two_months code vals Hin) as [a [b [Hab [Ha Hb]]]].
    apply Hs in Ha, Hb. cbn in Ha, Hb. intuition congruence.
Qed.

(** The codes of the table are in lower case. *)
Lemma labels_lower (code : string) (vals : list Z) :
  In (code, vals) labels -> lower code = code.
Proof.
  rewrite labels_unfold. cbn [In].
  intros H;
    repeat (destruct H as [H | H]; [injection H as <- <-; reflexivity |]).
  contradiction.
Qed.

(** C8, as stated, fails on upper case: JFM lower-cases to the code
    jfm, which resolves, but JFM itself leaves the label unbound. *)
Lemma time_label_upper_case_unresolved :
  lower "JFM" = "jfm"
  /\ _time_label (PyStr "jfm") true = Ok (LabelValue "jfm" [1; 2; 3])
  /\ _time_label (PyStr "JFM") true = Raise UnboundLocalError
  /\ _time_label (PyStr "JFM") true <> _time_label (PyStr (lower "JFM")) true.
Proof. repeat split. discriminate. Qed.

(** C8 (amended): the resolver compares strings exactly: of all the
    strings that lower-case to a code of the table, ann included, only
    the code itself resolves, to its label and months; every variant
    with an upper-case letter raises. *)
Theorem time_label_case_sensitive (code : string) (vals : list Z) (s : string) :
  In (code, vals) labels ->
  lower s = code ->
  (s = code -> resolves (PyStr s) code vals)
  /\ (s <> code ->
      forall rv, _time_label (PyStr s) rv = Raise UnboundLocalError).
Proof.
  intros Hin Hlow. split.
  - intros ->. now apply labels_self.
  - intros Hne rv. apply time_label_unknown_string.
    intros code' vals' Hin' ->.
    apply Hne. rewrite <- Hlow. symmetry.
    now apply (labels_lower code' vals').
Qed.

Lemma time_label_case_sensitive_witness :
  resolves (PyStr "ann") "ann" [1; 2; 3; 4; 5; 6; 7; 8; 9; 10; 11; 12]
  /\ _time_label (PyStr "Ann") true = Raise UnboundLocalError
  /\ _time_label (PyStr "DJF") false = Raise UnboundLocalError.
Proof.
  assert (In ("ann", [1; 2; 3; 4; 5; 6; 7; 8; 9; 10; 11; 12]) labels) as I1
    by (rewrite labels_unfold; cbn; intuition auto).
  assert (In ("djf", [1; 2; 12]) labels) as I2
    by (rewrite labels_unfold; cbn; intuition auto).
  refine (conj (proj1 (time_label_case_sensitive _ _ "ann" I1 eq_refl) eq_refl)
            (conj (proj2 (time_label_case_sensitive _ _ "Ann" I1 eq_refl) _ true)
                  (proj2 (time_label_case_sensitive _ _ "DJF" I2 eq_refl) _ false)));
    discriminate.
Defined.

(** ** The order of the season table does not matter

    [_time_label] walks a dictionary, whose iteration order older
    interpreters do not fix.  No two entries share a code or a set of
    months, so the entry found is the same in every order. *)

Lemma labels_code_unique (p q : string * list Z) :
  In p labels -> In q labels -> fst p = fst q -> p = q.
Proof.
  destruct p as [c v], q as [c' v']. cbn [fst]. intros Hp Hq <-.
  destruct (labels_self c v Hp) as [[H _] _].
  destruct (labels_self c v' Hq) as [[H' _] _].
  congruence.
Qed.

Lemma labels_months_unique (p q : string * list Z) :
  In p labels -> In q labels -> same_set (snd p) (snd q) -> p = q.
Proof.
  destruct p as [c v], q as [c' v']. cbn [snd]. intros Hp Hq Hs.
  destruct (labels_self c v Hp) as [_ [[H _] _]].
  destruct (labels_self c' v' Hq) as [_ [[H' _] _]].
  destruct (time_label_same_set v v' true Hs (labels_two_months c' v' Hq))
    as [E _].
  congruence.
Qed.

Lemma find_permutation {A : Type} (f : A -> bool) (l l' : list A) :
  Permutation l l' ->
  (forall x y, In x l -> In y l -> f x = true -> f y = true -> x = y) ->
  List.find f l = List.find f l'.
Proof.
  induction 1 as [| x l l' Hp IH | x y l | l l' l'' Hp1 IH1 Hp2 IH2];
    intros Hu.
  - reflexivity.
  - cbn [List.find]. destruct (f x); [reflexivity |].
    apply IH. intros a b Ha Hb. apply Hu; now right.
  - cbn [List.find]. destruct (f x) eqn:Ex, (f y) eqn:Ey; try reflexivity.
    f_equal. apply Hu; cbn [In]; auto.
  - rewrite IH1 by assumption. apply IH2.
    intros a b Ha Hb. apply Hu; eapply Permutation_in;
      try (apply Permutation_sym; eassumption); assumption.
Qed.

Lemma label_loop_not_iterable (intvl : val) (items : list (string * list Z)) :
  items <> [] ->
  (intvl = PyNone \/ (exists b, intvl = PyBool b) \/ exists z, intvl = PyInt z) ->
  label_loop intvl items = Raise TypeError.
Proof.
  intros Hne H. destruct items as [| [lbl vals] tl]; [contradiction |].
  destruct H as [-> | [[b ->] | [z ->]]]; reflexivity.
Qed.

Lemma label_loop_order (items : list (string * list Z)) (intvl : val) :
  Permutation labels items ->
  label_loop intvl items = label_loop intvl labels.
Proof.
  intros Hp.
  assert (items <> []) as Hne.
  { intros ->. apply Permutation_sym, Permutation_nil in Hp.
    rewrite labels_unfold in Hp. discriminate Hp. }
  assert (labels <> []) as Hne' by (rewrite labels_unfold; discriminate).
  destruct intvl as [| b | z | s | l | l].
  - rewrite !label_loop_not_iterable; auto.
  - rewrite !label_loop_not_iterable; eauto.
  - rewrite !label_loop_not_iterable; eauto.
  - rewrite (label_loop_str s labels labels_nonempty).
    rewrite (label_loop_str s items).
    + f_equal. symmetry. apply find_permutation; [assumption |].
      intros p q Hin Hin' Ep Eq.
      apply String.eqb_eq in Ep, Eq.
      apply labels_code_unique; congruence.
    + intros p Hin. apply labels_nonempty.
      eapply Permutation_in; [apply Permutation_sym |]; eassumption.
  - rewrite !label_loop_list. f_equal. symmetry.
    apply find_permutation; [assumption |].
    intros p q Hin Hin' Ep Eq. apply set_eqb_spec in Ep, Eq.
    apply labels_months_unique; try assumption.
    intros x. rewrite <- (Ep x). apply Eq.
  - rewrite !label_loop_tuple. f_equal. symmetry.
    apply find_permutation; [assumption |].
    intros p q Hin Hin' Ep Eq. apply set_eqb_spec in Ep, Eq.
    apply labels_months_unique; try assumption.
    intros x. rewrite <- (Ep x). apply Eq.
Qed.

Lemma time_label_order_irrelevant (items : list (string * list Z))
    (intvl : val) :
  Permutation labels items ->
  time_label_bind items intvl = time_label_bind labels intvl.
Proof.
  intros Hp. unfold time_label_bind.
  destruct intvl as [| b | z | s | [| a [| c l]] | [| a [| c l]]];
    try reflexivity; try (now apply label_loop_order).
  destruct (in_range z 1 13); [reflexivity | now apply label_loop_order].
Qed.

(** ** Unsupported combinations *)

Lemma str_in_spec (x : string) (l : list string) :
  str_in x l = true <-> In x l.
Proof.
  unfold str_in. rewrite existsb_exists. split.
  - intros [y [Hy E]]. apply String.eqb_eq in E. now subst.
  - intros H. exists x. split; [assumption | apply String.eqb_refl].
Qed.

Lemma str_in_absent (x : string) (l : list string) :
  ~ In x l -> str_in x l = false.
Proof.
  intros H. destruct (str_in x l) eqn:E; [| reflexivity].
  apply str_in_spec in E. contradiction.
Qed.

Lemma eqb_absent (x y : string) (l : list string) :
  ~ In x l -> In y l -> String.eqb x y = false.
Proof. intros Hn Hy. apply String.eqb_neq. intros ->. contradiction. Qed.

(** C7: when the data type and interval type reach no naming branch
    (an unknown data type; a time series with an interval type that is
    not annual, monthly, daily or hourly; a time average with seasonal
    or any other interval type that binds no label) the call returns no
    file name: it raises, on the unbound name for every non-zero
    duration, and on the division when the duration is zero. *)
Theorem nc_name_gfdl_no_branch_fails
    (name domain data_type intvl_type : string) (data_yr : Z) (intvl : val)
    (nc_start_yr nc_dur : Z) :
  no_branch data_type intvl_type ->
  (forall f, nc_name_gfdl name domain data_type intvl_type data_yr intvl
               nc_start_yr nc_dur <> Ok f)
  /\ (nc_dur <> 0 ->
      nc_name_gfdl name domain data_type intvl_type data_yr intvl
        nc_start_yr nc_dur = Raise UnboundLocalError)
  /\ (nc_dur = 0 ->
      nc_name_gfdl name domain data_type intvl_type data_yr intvl
        nc_start_yr nc_dur = Raise ZeroDivisionError).
Proof.
  intros Hnb.
  assert (nc_dur = 0 ->
          nc_name_gfdl name domain data_type intvl_type data_yr intvl
            nc_start_yr nc_dur = Raise ZeroDivisionError) as Hzero
    by (intros ->; reflexivity).
  assert (nc_dur <> 0 ->
          nc_name_gfdl name domain data_type intvl_type data_yr intvl
            nc_start_yr nc_dur = Raise UnboundLocalError) as Hunbound.
  { intros Hd. unfold nc_name_gfdl.
    rewrite nc_yr_of_pos by assumption. cbn [bind].
    destruct Hnb as [Hty | [[Hty [Hiv Hhr]] | [-> Hiv]]].
    - rewrite (str_in_absent data_type ["ts"; "inst"])
        by (cbn [In] in *; tauto).
      rewrite (eqb_absent data_type "av" _ Hty) by (cbn [In]; tauto).
      rewrite (eqb_absent data_type "av_ts" _ Hty) by (cbn [In]; tauto).
      reflexivity.
    - rewrite (proj2 (str_in_spec data_type ["ts"; "inst"]) Hty).
      rewrite (eqb_absent intvl_type "annual" _ Hiv) by (cbn [In]; tauto).
      rewrite (eqb_absent intvl_type "monthly" _ Hiv) by (cbn [In]; tauto).
      rewrite (eqb_absent intvl_type "daily" _ Hiv) by (cbn [In]; tauto).
      rewrite Hhr. reflexivity.
    - change (str_in "av" ["ts"; "inst"]) with false.
      change (String.eqb "av" "av") with true.
      cbv beta iota. unfold av_label.
      rewrite (str_in_absent intvl_type ["annual"; "ann"])
        by (cbn [In] in *; tauto).
      destruct (str_in intvl_type ["seasonal"; "seas"]); [reflexivity |].
      rewrite (str_in_absent intvl_type ["monthly"; "mon"])
        by (cbn [In] in *; tauto).
      reflexivity. }
  split; [| split; assumption].
  intros f. destruct (Z.eq_dec nc_dur 0) as [Hd | Hd].
  - rewrite (Hzero Hd). discriminate.
  - rewrite (Hunbound Hd). discriminate.
Qed.

Lemma nc_name_gfdl_no_branch_fails_witness :
  nc_name_gfdl "t_surf" "atmos" "av" "seasonal" 21 (PyStr "djf") 1 5
  = Raise UnboundLocalError
  /\ nc_name_gfdl "t_surf" "atmos" "ts" "weekly" 21 PyNone 1 5
     = Raise UnboundLocalError
  /\ nc_name_gfdl "t_surf" "atmos" "clim" "annual" 21 PyNone 1 5
     = Raise UnboundLocalError.
Proof.
  assert (no_branch "av" "seasonal") as B1.
  { right; right. split; [reflexivity |].
    cbn [In]. intros H. decompose [or] H; discriminate || assumption. }
  assert (no_branch "ts" "weekly") as B2.
  { right; left. split; [now left |]. split; [| reflexivity].
    cbn [In]. intros H. decompose [or] H; discriminate || assumption. }
  assert (no_branch "clim" "annual") as B3.
  { left. cbn [In].
    intros H. decompose [or] H; discriminate || assumption. }
  refine (conj (proj1 (proj2 (nc_name_gfdl_no_branch_fails
                                "t_surf" "atmos" "av" "seasonal" 21
                                (PyStr "djf") 1 5 B1)) _)
            (conj (proj1 (proj2 (nc_name_gfdl_no_branch_fails
                                   "t_surf" "atmos" "ts" "weekly" 21
                                   PyNone 1 5 B2)) _)
                  (proj1 (proj2 (nc_name_gfdl_no_branch_fails
                                   "t_surf" "atmos" "clim" "annual" 21
                                   PyNone 1 5 B3)) _))); lia.
Defined.

(** ** Time selection *)

Lemma selected_spec (start_yr end_yr : Z) (months : list Z) (d : date) :
  selected start_yr end_yr months d = true
  <-> in_interval start_yr end_yr months d.
Proof.
  unfold selected, in_interval, in_range.
  rewrite !andb_true_iff, existsb_exists, Z.leb_le, Z.ltb_lt.
  split.
  - intros [[x [Hx E]] [H1 H2]]. apply Z.eqb_eq in E. subst x.
    split; [lia | assumption].
  - intros [H Hm]. split; [| lia].
    exists (month d). split; [assumption | apply Z.eqb_refl].
Qed.

Lemma in_enumerate_from {A : Type} (l : list A) (k i : nat) (x : A) :
  In (i, x) (enumerate_from k l)
  <-> (k <= i)%nat /\ nth_error l (i - k) = Some x.
Proof.
  revert k. induction l as [| a tl IH]; intros k; cbn [enumerate_from In].
  - split; [contradiction |]. intros [_ H].
    destruct (i - k)%nat; discriminate H.
  - rewrite IH. split.
    + intros [E | [Hle Hn]].
      * injection E as -> ->. rewrite Nat.sub_diag. split; [lia | reflexivity].
      * split; [lia |].
        replace (i - k)%nat with (S (i - S k)) by lia. exact Hn.
    + intros [Hle Hn].
      destruct (Nat.eq_dec i k) as [-> | Hne].
      * rewrite Nat.sub_diag in Hn. left. cbn in Hn. congruence.
      * right. split; [lia |].
        replace (i - k)%nat with (S (i - S k)) in Hn by lia. exact Hn.
Qed.

(** The indices kept by the comprehension of [_get_time]. *)
Lemma in_selected_inds (f : date -> bool) (dates : list date) (i : nat) :
  In i (map fst (filter (fun p => f (snd p)) (enumerate dates)))
  <-> exists d, nth_error dates i = Some d /\ f d = true.
Proof.
  rewrite in_map_iff. unfold enumerate. split.
  - intros [[j d] [E Hin]]. cbn [fst] in E. subst j.
    apply filter_In in Hin. destruct Hin as [Hin Hf].
    apply in_enumerate_from in Hin. destruct Hin as [_ Hn].
    rewrite Nat.sub_0_r in Hn. exists d. split; assumption.
  - intros [d [Hn Hf]]. exists (i, d). split; [reflexivity |].
    apply filter_In. split; [| exact Hf].
    apply in_enumerate_from. rewrite Nat.sub_0_r. split; [lia | exact Hn].
Qed.




Section Selection.

Variable T : Type.
Variable num2date : list T -> string -> string -> result (list date).


End Selection.



(** ** Month indices from month initials *)

Lemma substring_empty (k m : nat) : substring k m "" = "".
Proof. destruct k, m; reflexivity. Qed.

Lemma occurs_at_0 (t sub : string) :
  occurs_at t sub 0 <-> prefix sub t = true.
Proof. unfold occurs_at. symmetry. apply prefix_correct. Qed.

Lemma occurs_at_S (c : ascii) (t sub : string) (k : nat) :
  occurs_at (String c t) sub (S k) <-> occurs_at t sub k.
Proof. unfold occurs_at. reflexivity. Qed.

Lemma find_from_none (sub s : string) (i : nat) :
  find_from sub s i = None -> forall k, ~ occurs_at s sub k.
Proof.
  revert i. induction s as [| c tl IH]; intros i H k Hocc.
  - cbn [find_from] in H.
    destruct (prefix sub "") eqn:E; [discriminate |].
    unfold occurs_at in Hocc. rewrite substring_empty in Hocc. subst sub.
    discriminate E.
  - cbn [find_from] in H.
    destruct (prefix sub (String c tl)) eqn:E; [discriminate |].
    destruct k as [| k].
    + apply occurs_at_0 in Hocc. congruence.
    + apply occurs_at_S in Hocc. exact (IH (S i) H k Hocc).
Qed.

Lemma find_from_some (sub s : string) (i j : nat) :
  find_from sub s i = Some j ->
  exists k, j = (i + k)%nat /\ first_occurrence s sub k.
Proof.
  revert i. induction s as [| c tl IH]; intros i H.
  - cbn [find_from] in H.
    destruct (prefix sub "") eqn:E; [| discriminate].
    injection H as <-. exists 0%nat. split; [lia |].
    split; [now apply occurs_at_0 | intros j' Hj; lia].
  - cbn [find_from] in H.
    destruct (prefix sub (String c tl)) eqn:E.
    + injection H as <-. exists 0%nat. split; [lia |].
      split; [now apply occurs_at_0 | intros j' Hj; lia].
    + destruct (IH (S i) H) as [k [-> [Hocc Hfirst]]].
      exists (S k). split; [lia |]. split.
      * now apply occurs_at_S.
      * intros j' Hj Hocc'. destruct j' as [| j'].
        -- apply occurs_at_0 in Hocc'. congruence.
        -- apply occurs_at_S in Hocc'. apply (Hfirst j'); [lia | assumption].
Qed.

Lemma first_occurrence_unique (t sub : string) (k k' : nat) :
  first_occurrence t sub k -> first_occurrence t sub k' -> k = k'.
Proof.
  intros [Ho Hf] [Ho' Hf'].
  destruct (Nat.lt_trichotomy k k') as [H | [H | H]]; [| assumption |].
  - exfalso. exact (Hf' k H Ho).
  - exfalso. exact (Hf k' H Ho').
Qed.

(** [find] returns the offset of the first occurrence, and -1 exactly
    when there is none. *)
Lemma find_first (t sub : string) (k : nat) :
  first_occurrence t sub k -> find t sub = Z.of_nat k.
Proof.
  intros Hk. unfold find.
  destruct (find_from sub t 0) as [j |] eqn:E.
  - apply find_from_some in E. destruct E as [k' [-> Hk']].
    now rewrite (first_occurrence_unique t sub k k' Hk Hk').
  - exfalso. destruct Hk as [Ho _].
    exact (find_from_none sub t 0 E k Ho).
Qed.

Lemma find_none (t sub : string) :
  (forall k, ~ occurs_at t sub k) -> find t sub = -1.
Proof.
  intros Hno. unfold find.
  destruct (find_from sub t 0) as [j |] eqn:E; [| reflexivity].
  apply find_from_some in E. destruct E as [k [_ [Ho _]]].
  exfalso. exact (Hno k Ho).
Qed.

Lemma range_consecutive (a : Z) (n : nat) :
  range a (a + Z.of_nat n) = consecutive a n.
Proof.
  unfold range.
  replace (Z.to_nat (a + Z.of_nat n - a)) with n by lia.
  revert a. induction n as [| n IH]; intros a; [reflexivity |].
  cbn [seq map consecutive]. f_equal; [lia |].
  rewrite <- seq_shift, map_map, <- IH.
  apply map_ext. intros i. lia.
Qed.

(** The string ann does not occur among the doubled month initials. *)
Lemma ann_not_initials (k : nat) : ~ occurs_at first_letter "ann" k.
Proof. apply (find_from_none "ann" first_letter 0). reflexivity. Qed.

(** C10: on every string the call returns a list and never raises: a
    string whose lower case first occurs at offset k of the doubled
    month initials gives the consecutive integers from k + 1 on, as
    many as the string has characters, so ndj gives 11, 12, 13; a
    string whose lower case is not ann and occurs nowhere gives the
    integers from 0 on, starting with 0, which is no month. *)
Theorem month_indices_strings (s : string) (iterable : bool) :
  (forall k, first_occurrence first_letter (lower s) k ->
     _month_indices (PyStr s) iterable
     = Ok (PyList (consecutive (Z.of_nat k + 1) (String.length s))))
  /\ ((forall k, ~ occurs_at first_letter (lower s) k) ->
      lower s <> "ann" ->
      _month_indices (PyStr s) iterable
      = Ok (PyList (consecutive 0 (String.length s)))
      /\ hd_error (consecutive 0 (String.length s)) = Some 0)
  /\ (exists l, _month_indices (PyStr s) iterable = Ok (PyList l))
  /\ _month_indices (PyStr "ndj") iterable = Ok (PyList [11; 12; 13])
  /\ _month_indices (PyStr "xyz") iterable = Ok (PyList [0; 1; 2]).
Proof.
  split; [| split; [| split; [| split; reflexivity]]].
  - intros k Hk. unfold _month_indices.
    destruct (String.eqb_spec (lower s) "ann") as [E | _].
    + exfalso. destruct Hk as [Ho _]. rewrite E in Ho.
      exact (ann_not_initials k Ho).
    + rewrite (find_first _ _ k Hk), range_consecutive. reflexivity.
  - intros Hno Hann. unfold _month_indices.
    destruct (String.eqb_spec (lower s) "ann") as [E | _]; [contradiction |].
    rewrite (find_none _ _ Hno).
    change (-1 + 1) with 0. rewrite range_consecutive.
    split; [reflexivity |].
    destruct s as [| c tl]; [| reflexivity].
    exfalso. apply (Hno 0%nat). reflexivity.
  - unfold _month_indices.
    destruct (String.eqb (lower s) "ann"); eexists; reflexivity.
Qed.

Lemma month_indices_strings_witness :
  _month_indices (PyStr "DJF") true = Ok (PyList [12; 13; 14])
  /\ _month_indices (PyStr "winter") true = Ok (PyList [0; 1; 2; 3; 4; 5]).
Proof.
  assert (first_occurrence first_letter (lower "DJF") 11) as F.
  { destruct (find_from_some "djf" first_letter 0 11 eq_refl)
      as [k [E Hk]].
    cbn in E. subst k. exact Hk. }
  assert (forall k, ~ occurs_at first_letter (lower "winter") k) as N
    by (apply (find_from_none "winter" first_letter 0); reflexivity).
  refine (conj (proj1 (month_indices_strings "DJF" true) 11%nat F)
               (proj1 (proj1 (proj2 (month_indices_strings "winter" true))
                         N _))).
  discriminate.
Defined.


(** ** Duplicating into a list *)

Lemma list_mul_single {A : Type} (a : A) (n : Z) :
  list_mul [a] n = List.repeat a (Z.to_nat n).
Proof.
  unfold list_mul. induction (Z.to_nat n) as [| k IH]; [reflexivity |].
  cbn. f_equal. exact IH.
Qed.

(** Whenever [to_dup_list] returns a list, the list has [n] elements
    ([n] counted as 0 when negative); from a single value, given bare
    or as a one-element list, it is that value [n] times. *)
Theorem to_dup_list_length {A : Type} (x : dup_arg A) (n : Z)
    (single_to_list : bool) (l : list A) :
  to_dup_list x n single_to_list = Ok (IsList l) ->
  List.length l = Z.to_nat n
  /\ forall a, x = NotList a \/ x = IsList [a] ->
               l = List.repeat a (Z.to_nat n).
Proof.
  intros H. destruct x as [a | l0]; cbn [to_dup_list] in H.
  - assert (l = List.repeat a (Z.to_nat n)) as ->.
    { destruct (Z.eqb_spec n 1) as [-> | _].
      - destruct single_to_list; [| discriminate]. now injection H as <-.
      - injection H as <-. apply list_mul_single. }
    split; [apply repeat_length |].
    intros a' [E | E]; [now injection E as -> | discriminate].
  - destruct (Z.eqb_spec (Z.of_nat (List.length l0)) n) as [En | Hn].
    + injection H as <-. split; [lia |].
      intros a [E | E]; [discriminate |]. injection E as ->.
      cbn in En. subst n. reflexivity.
    + destruct (Nat.eqb_spec (List.length l0) 1) as [E1 | _];
        [| discriminate].
      injection H as <-.
      destruct l0 as [| a [| b tl]]; try discriminate E1.
      rewrite list_mul_single. split; [apply repeat_length |].
      intros a' [E | E]; [discriminate | now injection E as ->].
Qed.

Lemma to_dup_list_length_witness :
  List.length [7; 7; 7] = Z.to_nat 3
  /\ forall a, IsList [7] = NotList a \/ IsList [7] = IsList [a] ->
               [7; 7; 7] = List.repeat a (Z.to_nat 3).
Proof. apply (to_dup_list_length (IsList [7]) 3 true [7; 7; 7] eq_refl). Defined.

(** [to_dup_list] raises exactly on a list whose length is neither [n]
    nor 1, and what it raises is a [ValueError]. *)
Theorem to_dup_list_raises_iff {A : Type} (x : dup_arg A) (n : Z)
    (single_to_list : bool) (e : exc) :
  to_dup_list x n single_to_list = Raise e
  <-> e = ValueError
      /\ exists l, x = IsList l
                   /\ Z.of_nat (List.length l) <> n
                   /\ List.length l <> 1%nat.
Proof.
  split.
  - intros H. destruct x as [a | l]; cbn [to_dup_list] in H.
    + destruct (n =? 1), single_to_list; discriminate H.
    + destruct (Z.eqb_spec (Z.of_nat (List.length l)) n); [discriminate |].
      destruct (Nat.eqb_spec (List.length l) 1); [discriminate |].
      injection H as <-. split; [reflexivity |]. exists l. auto.
  - intros [-> [l [-> [Hn H1]]]]. cbn [to_dup_list].
    destruct (Z.eqb_spec (Z.of_nat (List.length l)) n); [contradiction |].
    destruct (Nat.eqb_spec (List.length l) 1); [contradiction |].
    reflexivity.
Qed.

(** For a count that is not negative, applying [to_dup_list] to its own
    result changes nothing. *)
Theorem to_dup_list_idempotent {A : Type} (x r : dup_arg A) (n : Z)
    (single_to_list : bool) :
  0 <= n ->
  to_dup_list x n single_to_list = Ok r ->
  to_dup_list r n single_to_list = Ok r.
Proof.
  intros Hn H. destruct r as [a | l].
  - destruct x as [a0 | l0]; cbn [to_dup_list] in H.
    + destruct (Z.eqb_spec n 1) as [-> | _]; [| discriminate].
      destruct single_to_list; [discriminate |]. reflexivity.
    + destruct (Z.of_nat (List.length l0) =? n); [discriminate |].
      destruct (List.length l0 =? 1)%nat; discriminate.
  - assert (List.length l = Z.to_nat n) as Hl.
    { destruct x as [a0 | l0]; cbn [to_dup_list] in H.
      - destruct (Z.eqb_spec n 1) as [-> | _].
        + destruct single_to_list; [| discriminate].
          now injection H as <-.
        + injection H as <-. rewrite list_mul_single. apply repeat_length.
      - destruct (Z.eqb_spec (Z.of_nat (List.length l0)) n).
        + injection H as <-. lia.
        + destruct (Nat.eqb_spec (List.length l0) 1); [| discriminate].
          injection H as <-.
          destruct l0 as [| a [| b tl]]; try discriminate.
          rewrite list_mul_single. apply repeat_length. }
    cbn [to_dup_list].
    destruct (Z.eqb_spec (Z.of_nat (List.length l)) n); [reflexivity | lia].
Qed.

Lemma to_dup_list_idempotent_witness :
  to_dup_list (IsList ["a"; "a"; "a"]) 3 true = Ok (IsList ["a"; "a"; "a"]).
Proof.
  apply (to_dup_list_idempotent (NotList "a") (IsList ["a"; "a"; "a"]) 3 true).
  - lia.
  - reflexivity.
Defined.

(** ** What the resolver accepts *)

Lemma time_label_single (m : Z) :
  _time_label (PyList [m]) true = Ok (LabelValue (format_02 m) [m])
  /\ _time_label (PyTuple [m]) true = Ok (LabelValue (format_02 m) [m]).
Proof. split; reflexivity. Qed.

Lemma time_label_loop_found (intvl : val) (label : string) (value : list Z)
    (f : string * list Z -> bool) :
  (b <- Ok (List.find f labels) ;;
   match b with
   | None => Raise UnboundLocalError
   | Some (lbl, v) => Ok (LabelValue lbl v)
   end) = Ok (LabelValue label value) ->
  In (label, value) labels /\ f (label, value) = true.
Proof.
  cbn [bind]. destruct (List.find f labels) as [[lbl v] |] eqn:E;
    [| discriminate].
  intros H. injection H as <- <-. now apply find_some in E.
Qed.

(** Every returned pair comes from a month, a single-element sequence
    or an entry of the table. *)
Lemma time_label_inv (intvl : val) (label : string) (value : list Z) :
  _time_label intvl true = Ok (LabelValue label value) ->
  (exists m, value = [m] /\ label = format_02 m
             /\ ((intvl = PyInt m /\ 1 <= m <= 12)
                 \/ intvl = PyList [m] \/ intvl = PyTuple [m]))
  \/ (In (label, value) labels
      /\ (intvl = PyStr label
          \/ exists l, (intvl = PyList l \/ intvl = PyTuple l)
                       /\ same_set l value)).
Proof.
  intros H. destruct intvl as [| b | z | s | l | l].
  - discriminate H.
  - discriminate H.
  - unfold _time_label, time_label_bind in H.
    destruct (in_range z 1 13) eqn:E; [| discriminate H].
    cbn in H. injection H as <- <-.
    unfold in_range in E. apply andb_true_iff in E. destruct E as [E1 E2].
    apply Z.leb_le in E1. apply Z.ltb_lt in E2.
    left. exists z. repeat split; try reflexivity. left. split; [reflexivity | lia].
  - unfold _time_label, time_label_bind in H.
    rewrite (label_loop_str s labels labels_nonempty) in H.
    apply (time_label_loop_found (PyStr s)) in H. destruct H as [Hin E].
    cbn [fst] in E. apply String.eqb_eq in E. subst s.
    right. split; [assumption | now left].
  - destruct l as [| a [| b tl]].
    + destruct (time_label_list_loop [] true) as [E _]; [discriminate |].
      rewrite E, label_loop_list in H.
      apply (time_label_loop_found (PyList [])) in H. destruct H as [Hin Hs].
      right. split; [assumption |]. right. exists []. split; [now left |].
      now apply set_eqb_spec.
    + destruct (time_label_single a) as [E _]. rewrite E in H.
      injection H as <- <-. left. exists a. auto.
    + destruct (time_label_list_loop (a :: b :: tl) true) as [E _];
        [discriminate |].
      rewrite E, label_loop_list in H.
      apply (time_label_loop_found (PyList (a :: b :: tl))) in H.
      destruct H as [Hin Hs].
      right. split; [assumption |]. right. exists (a :: b :: tl).
      split; [now left |]. now apply set_eqb_spec.
  - destruct l as [| a [| b tl]].
    + destruct (time_label_list_loop [] true) as [_ E]; [discriminate |].
      rewrite E, label_loop_tuple in H.
      apply (time_label_loop_found (PyTuple [])) in H. destruct H as [Hin Hs].
      right. split; [assumption |]. right. exists []. split; [now right |].
      now apply set_eqb_spec.
    + destruct (time_label_single a) as [_ E]. rewrite E in H.
      injection H as <- <-. left. exists a. auto.
    + destruct (time_label_list_loop (a :: b :: tl) true) as [_ E];
        [discriminate |].
      rewrite E, label_loop_tuple in H.
      apply (time_label_loop_found (PyTuple (a :: b :: tl))) in H.
      destruct H as [Hin Hs].
      right. split; [assumption |]. right. exists (a :: b :: tl).
      split; [now right |]. now apply set_eqb_spec.
Qed.

(** [_time_label] returns a label and months exactly for: an integer
    1..12; any single-element list or tuple, whatever the integer in
    it, labelled by that integer padded to two digits; a code of the
    table; a list or tuple holding exactly the months of a code.
    Everything else, the string annual included, raises. *)
Theorem time_label_returns_iff (intvl : val) (label : string)
    (value : list Z) :
  _time_label intvl true = Ok (LabelValue label value)
  <-> (exists m, value = [m] /\ label = format_02 m
                 /\ ((intvl = PyInt m /\ 1 <= m <= 12)
                     \/ intvl = PyList [m] \/ intvl = PyTuple [m]))
      \/ (In (label, value) labels
          /\ (intvl = PyStr label
              \/ exists l, (intvl = PyList l \/ intvl = PyTuple l)
                           /\ same_set l value)).
Proof.
  split; [apply time_label_inv |].
  intros [[m [-> [-> H]]] | [Hin H]].
  - destruct H as [[-> Hm] | [-> | ->]]; try reflexivity.
    destruct (time_label_month m true Hm) as [E _].
    rewrite E, format_02_two_digits by lia. reflexivity.
  - destruct (labels_self label value Hin) as [[Hs _] _].
    destruct H as [-> | [l [Hl Hs']]]; [exact Hs |].
    destruct (labels_self label value Hin) as [_ [[Hlist _] [Htuple _]]].
    destruct (time_label_same_set l value true Hs'
                (labels_two_months label value Hin)) as [E1 E2].
    destruct Hl as [-> | ->]; congruence.
Qed.

(** The months returned by [_time_label] resolve to the same label and
    months when passed back as a list or as a tuple. *)
Theorem time_label_value_round_trip (intvl : val) (label : string)
    (value : list Z) :
  _time_label intvl true = Ok (LabelValue label value) ->
  _time_label (PyList value) true = Ok (LabelValue label value)
  /\ _time_label (PyTuple value) true = Ok (LabelValue label value).
Proof.
  intros H. apply time_label_inv in H.
  destruct H as [[m [-> [-> _]]] | [Hin _]].
  - apply time_label_single.
  - destruct (labels_self label value Hin) as [_ [[H1 _] [H2 _]]].
    split; assumption.
Qed.

Lemma time_label_value_round_trip_witness :
  _time_label (PyList [1; 2; 12]) true = Ok (LabelValue "djf" [1; 2; 12])
  /\ _time_label (PyTuple [1; 2; 12]) true = Ok (LabelValue "djf" [1; 2; 12]).
Proof.
  apply (time_label_value_round_trip (PyTuple [12; 2; 1; 1])). reflexivity.
Defined.

(** The label alone is returned exactly when the label and months
    are, and it is the same label. *)
Lemma time_label_label_only (intvl : val) (label : string) :
  _time_label intvl false = Ok (LabelOnly label)
  <-> exists value, _time_label intvl true = Ok (LabelValue label value).
Proof.
  unfold _time_label.
  destruct (time_label_bind labels intvl) as [[[lbl v] |] | e]; cbn [bind].
  - split.
    + intros H. injection H as <-. now exists v.
    + intros [v' H]. now injection H as <- _.
  - split; [discriminate | intros [v' H]; discriminate].
  - split; [discriminate | intros [v' H]; discriminate].
Qed.

(** ** Month initials and the season table *)

Lemma length_lower (s : string) : String.length (lower s) = String.length s.
Proof. induction s as [| c tl IH]; [reflexivity | cbn; now rewrite IH]. Qed.

Lemma get_some_lt (s : string) (n : nat) (c : ascii) :
  get n s = Some c -> (n < String.length s)%nat.
Proof.
  revert n. induction s as [| x tl IH]; intros n H; [discriminate |].
  destruct n as [| n]; cbn in *; [lia |]. apply IH in H. lia.
Qed.

Lemma get_lt_some (s : string) (n : nat) :
  (n < String.length s)%nat -> exists c, get n s = Some c.
Proof.
  revert n. induction s as [| x tl IH]; intros n H; cbn in H; [lia |].
  destruct n as [| n]; cbn; [now exists x |]. apply IH. lia.
Qed.

Lemma nth_error_consecutive (a : Z) (n j : nat) (i : Z) :
  nth_error (consecutive a n) j = Some i ->
  i = a + Z.of_nat j /\ (j < n)%nat.
Proof.
  revert a j. induction n as [| n IH]; intros a j H.
  - destruct j; discriminate H.
  - destruct j as [| j]; cbn in H.
    + injection H as <-. split; lia.
    + apply IH in H. split; lia.
Qed.

Lemma length_consecutive (a : Z) (n : nat) :
  List.length (consecutive a n) = n.
Proof. revert a. induction n as [| n IH]; intros a; cbn; auto. Qed.

Lemma first_letter_periodic (n : nat) :
  (n < 24)%nat -> get n first_letter = get (n mod 12) "jfmamjjasond".
Proof.
  intros Hn. do 24 (destruct n as [| n]; [reflexivity |]). lia.
Qed.

(** The indices returned for a string that occurs among the doubled
    month initials spell that string: there is one index per
    character, each between 1 and 24, and the month it stands for,
    counting 13 as January again, has the character as its initial. *)
Theorem month_indices_spell (s : string) (iterable : bool) (k : nat) :
  first_occurrence first_letter (lower s) k ->
  exists l,
    _month_indices (PyStr s) iterable = Ok (PyList l)
    /\ List.length l = String.length s
    /\ forall j i, nth_error l j = Some i ->
         1 <= i <= 24
         /\ i = Z.of_nat k + 1 + Z.of_nat j
         /\ month_initial i = get j (lower s).
Proof.
  intros Hk. exists (consecutive (Z.of_nat k + 1) (String.length s)).
  split; [| split; [apply length_consecutive |]].
  - unfold _month_indices.
    destruct (String.eqb_spec (lower s) "ann") as [E | _].
    + exfalso. destruct Hk as [Ho _]. rewrite E in Ho.
      exact (ann_not_initials k Ho).
    + rewrite (find_first _ _ k Hk), range_consecutive. reflexivity.
  - intros j i Hj. apply nth_error_consecutive in Hj. destruct Hj as [-> Hlt].
    destruct Hk as [Ho _]. unfold occurs_at in Ho.
    rewrite <- length_lower in Hlt.
    assert (get j (lower s) = get (j + k) first_letter) as Hget
      by (rewrite <- Ho at 1; now apply substring_correct1).
    destruct (get_lt_some (lower s) j Hlt) as [c Hc].
    assert (j + k < 24)%nat as Hb.
    { apply (get_some_lt first_letter (j + k) c). congruence. }
    split; [lia |]. split; [reflexivity |].
    rewrite Hget, (first_letter_periodic _ Hb).
    unfold month_initial, wrap_month. f_equal.
    replace (Z.of_nat k + 1 + Z.of_nat j - 1) with (Z.of_nat (j + k)) by lia.
    rewrite Z.add_simpl_r. change 12 with (Z.of_nat 12).
    rewrite <- Nat2Z.inj_mod. apply Nat2Z.id.
Qed.

Lemma month_indices_spell_witness :
  exists l,
    _month_indices (PyStr "OND") true = Ok (PyList l)
    /\ List.length l = String.length "OND"
    /\ forall j i, nth_error l j = Some i ->
         1 <= i <= 24
         /\ i = Z.of_nat 9 + 1 + Z.of_nat j
         /\ month_initial i = get j (lower "OND").
Proof.
  apply (month_indices_spell "OND" true 9).
  destruct (find_from_some "ond" first_letter 0 9 eq_refl) as [k [E Hk]].
  cbn in E. subst k. exact Hk.
Defined.

(** The season table and the month initials agree: for every code of
    the table [_month_indices] returns indices that stand, counting 13
    as January again, for exactly the months the table gives. *)
Theorem labels_agree_with_initials (code : string) (vals : list Z) :
  In (code, vals) labels ->
  exists l,
    _month_indices (PyStr code) true = Ok (PyList l)
    /\ same_set (map wrap_month l) vals.
Proof.
  rewrite labels_unfold. cbn [In].
  intros H;
    repeat (destruct H as [H | H];
            [injection H as <- <-; eexists;
             split; [reflexivity | apply set_eqb_spec; reflexivity] |]).
  contradiction.
Qed.

Lemma labels_agree_with_initials_witness :
  exists l,
    _month_indices (PyStr "djf") true = Ok (PyList l)
    /\ same_set (map wrap_month l) [1; 2; 12].
Proof.
  apply (labels_agree_with_initials "djf" [1; 2; 12]).
  rewrite labels_unfold. cbn. intuition auto.
Defined.

(** ** Blocks of years and their files *)

Lemma str_app_assoc (a b c : string) : (a ++ b) ++ c = a ++ b ++ c.
Proof. induction a as [| x a IH]; [reflexivity | cbn; now rewrite IH]. Qed.

Lemma str_app_cancel_l (a b c : string) : a ++ b = a ++ c -> b = c.
Proof.
  induction a as [| x a IH]; intros H; [exact H |].
  cbn in H. injection H as H. now apply IH.
Qed.

Lemma nc_yr_of_inv (data_yr nc_start_yr nc_dur y : Z) :
  nc_yr_of data_yr nc_start_yr nc_dur = Ok y ->
  nc_dur <> 0 /\ y = data_yr - (data_yr - nc_start_yr) mod nc_dur.
Proof.
  unfold nc_yr_of, py_mod. destruct (Z.eqb_spec nc_dur 0); [discriminate |].
  cbn. intros H. injection H as <-. split; [assumption | reflexivity].
Qed.

(** The data years served by the file that starts in year [y] are
    exactly the [nc_dur] years from [y] on. *)
Theorem nc_yr_of_block (data_yr nc_start_yr nc_dur y : Z) :
  0 < nc_dur ->
  nc_yr_of data_yr nc_start_yr nc_dur = Ok y ->
  forall other_yr,
    nc_yr_of other_yr nc_start_yr nc_dur = Ok y
    <-> y <= other_yr < y + nc_dur.
Proof.
  intros Hd Hy other_yr.
  apply nc_yr_of_inv in Hy. destruct Hy as [Hn Hy].
  rewrite nc_yr_of_pos by assumption.
  pose proof (Z.mod_pos_bound (data_yr - nc_start_yr) nc_dur Hd) as Hb.
  pose proof (Z.mod_pos_bound (other_yr - nc_start_yr) nc_dur Hd) as Hb'.
  pose proof (Z.div_mod (data_yr - nc_start_yr) nc_dur Hn) as Hdm.
  split.
  - intros H. injection H as H. lia.
  - intros Hin. f_equal.
    assert ((other_yr - nc_start_yr) mod nc_dur = other_yr - y) as E; [| lia].
    replace (other_yr - nc_start_yr)
      with ((other_yr - y) + ((data_yr - nc_start_yr) / nc_dur) * nc_dur)
      by lia.
    rewrite Z.mod_add by assumption. apply Z.mod_small. lia.
Qed.

Lemma nc_yr_of_block_witness :
  nc_yr_of 24 1 5 = Ok 21 <-> 21 <= 24 < 21 + 5.
Proof.
  apply (nc_yr_of_block 22 1 5 21); [lia | reflexivity].
Defined.

(** Moving the data year by whole durations moves the file start year
    by as much, and moving the archive start year by whole durations
    changes nothing: only its remainder matters. *)
Theorem nc_yr_of_shift (data_yr nc_start_yr nc_dur y k : Z) :
  nc_yr_of data_yr nc_start_yr nc_dur = Ok y ->
  nc_yr_of (data_yr + k * nc_dur) nc_start_yr nc_dur = Ok (y + k * nc_dur)
  /\ nc_yr_of data_yr (nc_start_yr + k * nc_dur) nc_dur = Ok y.
Proof.
  intros Hy. apply nc_yr_of_inv in Hy. destruct Hy as [Hn ->].
  rewrite !nc_yr_of_pos by assumption.
  split; f_equal.
  - replace (data_yr + k * nc_dur - nc_start_yr)
      with (data_yr - nc_start_yr + k * nc_dur) by lia.
    rewrite Z.mod_add by assumption. lia.
  - replace (data_yr - (nc_start_yr + k * nc_dur))
      with (data_yr - nc_start_yr + (- k) * nc_dur) by lia.
    rewrite Z.mod_add by assumption. reflexivity.
Qed.

Lemma nc_yr_of_shift_witness :
  nc_yr_of (23 + 2 * 5) 1 5 = Ok (21 + 2 * 5)
  /\ nc_yr_of 23 (1 + 2 * 5) 5 = Ok 21.
Proof. apply (nc_yr_of_shift 23 1 5 21 2). reflexivity. Defined.

(** [nc_name_gfdl] uses the data year only through the file start
    year. *)
Lemma nc_name_gfdl_by_start (name domain data_type intvl_type : string)
    (data_yr other_yr : Z) (intvl : val) (nc_start_yr nc_dur : Z) :
  nc_yr_of other_yr nc_start_yr nc_dur = nc_yr_of data_yr nc_start_yr nc_dur ->
  nc_name_gfdl name domain data_type intvl_type other_yr intvl
    nc_start_yr nc_dur
  = nc_name_gfdl name domain data_type intvl_type data_yr intvl
      nc_start_yr nc_dur.
Proof. intros H. unfold nc_name_gfdl. now rewrite H. Qed.

(** Every name returned starts with the domain, a dot and the padded
    file start year. *)
Lemma nc_name_gfdl_shape (name domain data_type intvl_type : string)
    (data_yr : Z) (intvl : val) (nc_start_yr nc_dur y : Z) (f : string) :
  nc_yr_of data_yr nc_start_yr nc_dur = Ok y ->
  nc_name_gfdl name domain data_type intvl_type data_yr intvl
    nc_start_yr nc_dur = Ok f ->
  exists rest, f = domain ++ "." ++ format_04d y ++ rest.
Proof.
  intros Hy. unfold nc_name_gfdl. rewrite Hy. cbn [bind].
  destruct (str_in data_type ["ts"; "inst"]).
  - destruct (String.eqb intvl_type "annual").
    + destruct (nc_dur =? 1); cbn [bind]; intros H; injection H as <-;
        eexists; reflexivity.
    + destruct (String.eqb intvl_type "monthly");
        [cbn [bind]; intros H; injection H as <-; eexists; reflexivity |].
      destruct (String.eqb intvl_type "daily");
        [cbn [bind]; intros H; injection H as <-; eexists; reflexivity |].
      destruct (contains intvl_type "hr"); cbn [bind]; [| discriminate].
      intros H; injection H as <-. cbn [join].
      rewrite str_app_assoc. eexists; reflexivity.
  - destruct (String.eqb data_type "av").
    + destruct (av_label intvl_type intvl) as [[label |] | e]; cbn [bind];
        try discriminate.
      destruct (nc_dur =? 1); cbn [bind]; intros H; injection H as <-;
        eexists; reflexivity.
    + destruct (String.eqb data_type "av_ts"); cbn [bind]; [| discriminate].
      intros H; injection H as <-. eexists; reflexivity.
Qed.

Lemma digit_inj (a b : Z) :
  0 <= a <= 9 -> 0 <= b <= 9 -> digit a = digit b -> a = b.
Proof.
  intros Ha Hb H. unfold digit in H.
  apply (f_equal nat_of_ascii) in H.
  rewrite !nat_ascii_embedding in H by lia. lia.
Qed.

Lemma four_digits_inj (y y' : Z) :
  0 <= y <= 9999 -> 0 <= y' <= 9999 ->
  four_digits y = four_digits y' -> y = y'.
Proof.
  intros Hy Hy' H. unfold four_digits in H.
  assert (forall z, 0 <= z <= 9999 ->
            0 <= z / 1000 <= 9 /\ 0 <= z / 100 mod 10 <= 9
            /\ 0 <= z / 10 mod 10 <= 9 /\ 0 <= z mod 10 <= 9) as Hb
    by (intros z Hz; Z.to_euclidean_division_equations; lia).
  destruct (Hb y Hy) as [B1 [B2 [B3 B4]]].
  destruct (Hb y' Hy') as [B1' [B2' [B3' B4']]].
  inversion H as [[H1 H2 H3 H4]].
  apply digit_inj in H1, H2, H3, H4; try assumption.
  Z.to_euclidean_division_equations; lia.
Qed.

Lemma str4_app_inj (a b c d a' b' c' d' : ascii) (r r' : string) :
  String a (String b (String c (String d r)))
  = String a' (String b' (String c' (String d' r'))) ->
  a = a' /\ b = b' /\ c = c' /\ d = d'.
Proof. intros H. injection H as -> -> -> -> _. auto. Qed.

Lemma four_digits_app_inj (y y' : Z) (r r' : string) :
  four_digits y ++ r = four_digits y' ++ r' ->
  four_digits y = four_digits y'.
Proof.
  unfold four_digits. cbn [append]. intros H.
  apply str4_app_inj in H. destruct H as [-> [-> [-> ->]]]. reflexivity.
Qed.

(** All the years of a block get the same file name, whatever the
    data type and interval type, failures included. *)
Theorem nc_name_gfdl_same_block (name domain data_type intvl_type : string)
    (data_yr other_yr : Z) (intvl : val) (nc_start_yr nc_dur y : Z) :
  0 < nc_dur ->
  nc_yr_of data_yr nc_start_yr nc_dur = Ok y ->
  y <= other_yr < y + nc_dur ->
  nc_name_gfdl name domain data_type intvl_type other_yr intvl
    nc_start_yr nc_dur
  = nc_name_gfdl name domain data_type intvl_type data_yr intvl
      nc_start_yr nc_dur.
Proof.
  intros Hd Hy Hin. apply nc_name_gfdl_by_start. rewrite Hy.
  apply nc_yr_of_inv in Hy. destruct Hy as [Hn Hy].
  rewrite nc_yr_of_pos by assumption. f_equal.
  pose proof (Z.div_mod (data_yr - nc_start_yr) nc_dur Hn) as Hdm.
  assert ((other_yr - nc_start_yr) mod nc_dur = other_yr - y) as E; [| lia].
  replace (other_yr - nc_start_yr)
    with ((other_yr - y) + ((data_yr - nc_start_yr) / nc_dur) * nc_dur)
    by lia.
  rewrite Z.mod_add by assumption. apply Z.mod_small. lia.
Qed.

Lemma nc_name_gfdl_same_block_witness :
  nc_name_gfdl "t_surf" "atmos" "ts" "monthly" 25 PyNone 1 5
  = nc_name_gfdl "t_surf" "atmos" "ts" "monthly" 22 PyNone 1 5.
Proof.
  apply (nc_name_gfdl_same_block "t_surf" "atmos" "ts" "monthly" 22 25
           PyNone 1 5 21); [lia | reflexivity | lia].
Defined.

(** With file start years of up to four digits, two data years that
    get the same file name lie in the same block: no two blocks share
    a name. *)
Theorem nc_name_gfdl_distinct_blocks
    (name domain data_type intvl_type : string) (data_yr other_yr : Z)
    (intvl : val) (nc_start_yr nc_dur y y' : Z) (f : string) :
  nc_yr_of data_yr nc_start_yr nc_dur = Ok y ->
  nc_yr_of other_yr nc_start_yr nc_dur = Ok y' ->
  0 <= y <= 9999 -> 0 <= y' <= 9999 ->
  nc_name_gfdl name domain data_type intvl_type data_yr intvl
    nc_start_yr nc_dur = Ok f ->
  nc_name_gfdl name domain data_type intvl_type other_yr intvl
    nc_start_yr nc_dur = Ok f ->
  y = y'.
Proof.
  intros Hy Hy' Hb Hb' Hf Hf'.
  destruct (nc_name_gfdl_shape _ _ _ _ _ _ _ _ _ _ Hy Hf) as [r E].
  destruct (nc_name_gfdl_shape _ _ _ _ _ _ _ _ _ _ Hy' Hf') as [r' E'].
  rewrite E in E'. apply str_app_cancel_l in E'. cbn in E'.
  injection E' as E'.
  rewrite !format_04d_four_digits in E' by assumption.
  apply four_digits_inj; try assumption.
  now apply (four_digits_app_inj y y' r r').
Qed.

Lemma nc_name_gfdl_distinct_blocks_witness : 21 = 21.
Proof.
  apply (nc_name_gfdl_distinct_blocks "olr" "atmos" "ts" "daily" 22 25
           PyNone 1 5 21 21 "atmos.00210101-00251231.olr.nc");
    try reflexivity; lia.
Defined.

Lemma contains_spec (s sub : string) :
  contains s sub = true <-> exists k, occurs_at s sub k.
Proof.
  unfold contains, find.
  destruct (find_from sub s 0) as [i |] eqn:E.
  - split; [| intros _; apply Z.leb_le; lia].
    intros _. apply find_from_some in E.
    destruct E as [k [_ [Ho _]]]. now exists k.
  - split; [discriminate |].
    intros [k Ho]. exfalso. exact (find_from_none sub s 0 E k Ho).
Qed.

(** [nc_name_gfdl] returns a file name exactly when the duration is
    not zero and a naming branch is reached: a time series or
    instantaneous type with an annual, monthly or daily interval type
    or one that contains hr; a time average with an annual interval
    type, or with a monthly one and an interval that [_time_label]
    resolves; or the averaged time series type. *)
Theorem nc_name_gfdl_returns_iff (name domain data_type intvl_type : string)
    (data_yr : Z) (intvl : val) (nc_start_yr nc_dur : Z) :
  (exists f, nc_name_gfdl name domain data_type intvl_type data_yr intvl
               nc_start_yr nc_dur = Ok f)
  <-> nc_dur <> 0 /\ names_file data_type intvl_type intvl.
Proof.
  split.
  - intros [f H].
    assert (nc_dur <> 0) as Hn.
    { intros ->. unfold nc_name_gfdl in H. rewrite nc_yr_of_zero in H.
      discriminate H. }
    split; [assumption |].
    unfold nc_name_gfdl in H. rewrite nc_yr_of_pos in H by assumption.
    cbn [bind] in H. unfold names_file.
    destruct (str_in data_type ["ts"; "inst"]) eqn:Ets.
    + apply str_in_spec in Ets. left. split; [assumption |].
      destruct (String.eqb_spec intvl_type "annual") as [-> | _];
        [left; cbn; auto |].
      destruct (String.eqb_spec intvl_type "monthly") as [-> | _];
        [left; cbn; auto |].
      destruct (String.eqb_spec intvl_type "daily") as [-> | _];
        [left; cbn; auto |].
      destruct (contains intvl_type "hr") eqn:Ehr; [| discriminate H].
      right. now apply contains_spec.
    + destruct (String.eqb_spec data_type "av") as [-> | _].
      * right; left. split; [reflexivity |]. unfold av_label in H.
        destruct (str_in intvl_type ["annual"; "ann"]) eqn:Ea;
          [left; now apply str_in_spec |].
        destruct (str_in intvl_type ["seasonal"; "seas"]); [discriminate H |].
        destruct (str_in intvl_type ["monthly"; "mon"]) eqn:Em;
          [| discriminate H].
        right. split; [now apply str_in_spec |].
        destruct (_time_label intvl true) as [[l v | l] | e];
          try discriminate H.
        now exists l, v.
      * destruct (String.eqb_spec data_type "av_ts") as [-> | _];
          [| discriminate H].
        right; right. reflexivity.
  - intros [Hn Hb]. unfold nc_name_gfdl.
    rewrite nc_yr_of_pos by assumption. cbn [bind].
    destruct Hb as [[Hdt Hit] | [[-> Hit] | ->]].
    + rewrite (proj2 (str_in_spec _ _) Hdt).
      destruct (String.eqb intvl_type "annual") eqn:E1;
        [destruct (nc_dur =? 1); eexists; reflexivity |].
      destruct (String.eqb intvl_type "monthly") eqn:E2;
        [eexists; reflexivity |].
      destruct (String.eqb intvl_type "daily") eqn:E3;
        [eexists; reflexivity |].
      destruct Hit as [Hit | Hhr].
      * apply String.eqb_neq in E1, E2, E3. cbn [In] in Hit.
        exfalso. intuition congruence.
      * rewrite (proj2 (contains_spec _ _) Hhr). eexists; reflexivity.
    + change (str_in "av" ["ts"; "inst"]) with false.
      change (String.eqb "av" "av") with true. cbv iota.
      unfold av_label.
      destruct Hit as [Hit | [Hit [l [v Hl]]]].
      * rewrite (proj2 (str_in_spec _ _) Hit). cbn [bind].
        destruct (nc_dur =? 1); eexists; reflexivity.
      * cbn [In] in Hit. destruct Hit as [<- | [<- | []]];
          cbn [str_in existsb String.eqb Ascii.eqb Bool.eqb orb andb];
          rewrite Hl; cbn [bind];
          destruct (nc_dur =? 1); eexists; reflexivity.
    + eexists; reflexivity.
Qed.

(** The year stamp of annual time-series files and of time-averaged
    files is the label [_yr_label] gives to the first and last year of
    the block: one year for a duration of 1, a range otherwise.  The
    averaged time series type always writes the range, so that a
    duration of 1 gives the same year twice. *)
Theorem nc_name_gfdl_year_stamp (name domain : string) (data_yr : Z)
    (intvl : val) (nc_start_yr nc_dur y : Z) :
  nc_yr_of data_yr nc_start_yr nc_dur = Ok y ->
  exists stamp,
    _yr_label (PyTuple [y; y + nc_dur - 1]) = Ok stamp
    /\ (forall data_type, In data_type ["ts"; "inst"] ->
          nc_name_gfdl name domain data_type "annual" data_yr intvl
            nc_start_yr nc_dur
          = Ok (domain ++ "." ++ stamp ++ "." ++ name ++ ".nc"))
    /\ (forall intvl_type, In intvl_type ["annual"; "ann"] ->
          nc_name_gfdl name domain "av" intvl_type data_yr intvl
            nc_start_yr nc_dur
          = Ok (domain ++ "." ++ stamp ++ ".ann.nc"))
    /\ (forall intvl_type label value,
          In intvl_type ["monthly"; "mon"] ->
          _time_label intvl true = Ok (LabelValue label value) ->
          nc_name_gfdl name domain "av" intvl_type data_yr intvl
            nc_start_yr nc_dur
          = Ok (domain ++ "." ++ stamp ++ "." ++ label ++ ".nc"))
    /\ (forall intvl_type,
          nc_name_gfdl name domain "av_ts" intvl_type data_yr intvl
            nc_start_yr nc_dur
          = Ok (domain ++ "." ++ format_04d y ++ "-"
                ++ format_04d (y + nc_dur - 1) ++ ".01-12.nc")).
Proof.
  intros Hy.
  exists (if nc_dur =? 1 then format_04d y
          else format_04d y ++ "-" ++ format_04d (y + nc_dur - 1)).
  split.
  { cbn [_yr_label getitem nth_error bind].
    destruct (Z.eqb_spec nc_dur 1) as [-> | Hn].
    - replace (y + 1 - 1) with y by lia. now rewrite Z.eqb_refl.
    - destruct (Z.eqb_spec y (y + nc_dur - 1)); [lia | reflexivity]. }
  unfold nc_name_gfdl. rewrite Hy. cbn [bind].
  split; [| split; [| split]].
  - intros data_type Hdt. rewrite (proj2 (str_in_spec _ _) Hdt).
    cbn [String.eqb Ascii.eqb Bool.eqb].
    destruct (nc_dur =? 1); cbn [bind join];
      rewrite ?str_app_assoc; reflexivity.
  - intros intvl_type Hit.
    change (str_in "av" ["ts"; "inst"]) with false.
    change (String.eqb "av" "av") with true. cbv iota.
    unfold av_label. rewrite (proj2 (str_in_spec _ _) Hit). cbn [bind].
    destruct (nc_dur =? 1); cbn [bind];
      rewrite ?str_app_assoc; reflexivity.
  - intros intvl_type label value Hit Hl.
    change (str_in "av" ["ts"; "inst"]) with false.
    change (String.eqb "av" "av") with true. cbv iota.
    unfold av_label.
    cbn [In] in Hit. destruct Hit as [<- | [<- | []]];
      cbn [str_in existsb String.eqb Ascii.eqb Bool.eqb orb andb];
      rewrite Hl; cbn [bind];
      destruct (nc_dur =? 1); cbn [bind];
      rewrite ?str_app_assoc; reflexivity.
  - intros intvl_type. reflexivity.
Qed.

Lemma nc_name_gfdl_year_stamp_witness :
  exists stamp,
    _yr_label (PyTuple [1983; 1983 + 1 - 1]) = Ok stamp
    /\ nc_name_gfdl "olr" "atmos" "av" "mon" 1983 (PyInt 7) 1980 1
       = Ok ("atmos" ++ "." ++ stamp ++ "." ++ "07" ++ ".nc").
Proof.
  destruct (nc_name_gfdl_year_stamp "olr" "atmos" 1983 (PyInt 7) 1980 1 1983
              eq_refl) as [stamp [H1 [_ [_ [H2 _]]]]].
  exists stamp. split; [exact H1 |].
  apply (H2 "mon" "07" [7]); [cbn; auto | reflexivity].
Defined.

(** On the monthly time-averaged branch a failure of [_time_label] is
    the failure of [nc_name_gfdl], unless the duration is zero, which
    fails first. *)
Theorem nc_name_gfdl_av_unresolved (name domain intvl_type : string)
    (data_yr : Z) (intvl : val) (nc_start_yr nc_dur : Z) (e : exc) :
  In intvl_type ["monthly"; "mon"] ->
  _time_label intvl true = Raise e ->
  nc_name_gfdl name domain "av" intvl_type data_yr intvl nc_start_yr nc_dur
  = Raise (if nc_dur =? 0 then ZeroDivisionError else e).
Proof.
  intros Hit Hl. unfold nc_name_gfdl, nc_yr_of, py_mod.
  destruct (nc_dur =? 0); [reflexivity |]. cbn [bind].
  change (str_in "av" ["ts"; "inst"]) with false.
  change (String.eqb "av" "av") with true. cbv iota.
  unfold av_label.
  cbn [In] in Hit. destruct Hit as [<- | [<- | []]];
    cbn [str_in existsb String.eqb Ascii.eqb Bool.eqb orb andb];
    rewrite Hl; reflexivity.
Qed.

Lemma nc_name_gfdl_av_unresolved_witness :
  nc_name_gfdl "olr" "atmos" "av" "monthly" 1983 (PyStr "JJA") 1980 1
  = Raise UnboundLocalError
  /\ nc_name_gfdl "olr" "atmos" "av" "mon" 1983 (PyInt 13) 1980 0
     = Raise ZeroDivisionError.
Proof.
  split.
  - apply (nc_name_gfdl_av_unresolved "olr" "atmos" "monthly" 1983
             (PyStr "JJA") 1980 1 UnboundLocalError);
      [cbn; auto | reflexivity].
  - apply (nc_name_gfdl_av_unresolved "olr" "atmos" "mon" 1983
             (PyInt 13) 1980 0 TypeError);
      [cbn; auto | reflexivity].
Defined.

(** What the file name does not depend on: the variable name for the
    time-averaged and averaged-time-series types, and the interval
    for everything but the monthly time-averaged branch. *)
Theorem nc_name_gfdl_unused_arguments
    (name domain data_type intvl_type : string) (data_yr : Z) (intvl : val)
    (nc_start_yr nc_dur : Z) :
  (In data_type ["av"; "av_ts"] ->
   forall name',
     nc_name_gfdl name' domain data_type intvl_type data_yr intvl
       nc_start_yr nc_dur
     = nc_name_gfdl name domain data_type intvl_type data_yr intvl
         nc_start_yr nc_dur)
  /\ (~ (data_type = "av" /\ In intvl_type ["monthly"; "mon"]) ->
      forall intvl',
        nc_name_gfdl name domain data_type intvl_type data_yr intvl'
          nc_start_yr nc_dur
        = nc_name_gfdl name domain data_type intvl_type data_yr intvl
            nc_start_yr nc_dur).
Proof.
  split.
  - intros Hdt name'. cbn [In] in Hdt.
    destruct Hdt as [<- | [<- | []]]; reflexivity.
  - intros Hno intvl'. unfold nc_name_gfdl.
    destruct (nc_yr_of data_yr nc_start_yr nc_dur) as [y | e];
      [| reflexivity].
    cbn [bind].
    destruct (str_in data_type ["ts"; "inst"]); [reflexivity |].
    destruct (String.eqb_spec data_type "av") as [-> | _]; [| reflexivity].
    unfold av_label.
    destruct (str_in intvl_type ["annual"; "ann"]); [reflexivity |].
    destruct (str_in intvl_type ["seasonal"; "seas"]); [reflexivity |].
    destruct (str_in intvl_type ["monthly"; "mon"]) eqn:E; [| reflexivity].
    exfalso. apply Hno. split; [reflexivity | now apply str_in_spec].
Qed.

Lemma nc_name_gfdl_unused_arguments_witness :
  nc_name_gfdl "precip" "atmos" "av" "ann" 21 PyNone 1 5
  = nc_name_gfdl "t_surf" "atmos" "av" "ann" 21 PyNone 1 5
  /\ nc_name_gfdl "t_surf" "atmos" "ts" "daily" 21 (PyStr "jja") 1 5
     = nc_name_gfdl "t_surf" "atmos" "ts" "daily" 21 PyNone 1 5.
Proof.
  split.
  - apply (proj1 (nc_name_gfdl_unused_arguments "t_surf" "atmos" "av" "ann"
                    21 PyNone 1 5)). cbn; auto.
  - apply (proj2 (nc_name_gfdl_unused_arguments "t_surf" "atmos" "ts" "daily"
                    21 PyNone 1 5)).
    intros [H _]. discriminate H.
Defined.

(** ** Selecting nothing, selecting more *)

Lemma selected_inds_none (f : date -> bool) (dates : list date) :
  (forall d, In d dates -> f d = false) ->
  map fst (filter (fun p => f (snd p)) (enumerate dates)) = [].
Proof.
  intros H.
  destruct (map fst (filter (fun p => f (snd p)) (enumerate dates)))
    as [| i tl] eqn:E; [reflexivity |].
  assert (In i (i :: tl)) as Hi by now left.
  rewrite <- E in Hi. apply in_selected_inds in Hi.
  destruct Hi as [d [Hn Hf]]. apply nth_error_In in Hn.
  rewrite (H d Hn) in Hf. discriminate.
Qed.

Section Queries.

Variable T : Type.
Variable num2date : list T -> string -> string -> result (list date).

(** A query with no months, or with an end year before the start year,
    selects nothing, whatever the axis: once the axis is decoded the
    indices-only mode returns the empty index list and raises nothing,
    and the modes that return values raise [IndexError], from indexing
    the time variable with the empty list.  A failure of the decoder
    is returned as it is, in every mode. *)
Theorem get_time_empty_query (time : list T) (units calendar : string)
    (start_yr end_yr : Z) (months : list Z) (indices : val) :
  months = [] \/ end_yr < start_yr ->
  (forall dates,
     num2date time units (lower calendar) = Ok dates ->
     _get_time num2date time units calendar start_yr end_yr months indices
     = if eqb indices (PyStr "only") then Ok (Inds [])
       else Raise IndexError)
  /\ (forall e,
        num2date time units (lower calendar) = Raise e ->
        _get_time num2date time units calendar start_yr end_yr months indices
        = Raise e).
Proof.
  intros Hq. split.
  - intros dates Hdec. unfold _get_time. rewrite Hdec. cbn [bind].
    rewrite (selected_inds_none (selected start_yr end_yr months)).
    + destruct (eqb indices (PyStr "only")); [reflexivity |].
      destruct (truthy indices); reflexivity.
    + intros d _. unfold selected, in_range.
      destruct Hq as [-> | Hlt]; [reflexivity |].
      destruct (Z.leb_spec start_yr (year d)), (Z.ltb_spec (year d) (end_yr + 1));
        try lia; cbn; apply andb_false_r.
  - intros e Hdec. unfold _get_time. rewrite Hdec. reflexivity.
Qed.

(** Asking for more months or for a wider range of years never loses
    an index. *)
Theorem get_time_monotone (time : list T) (units calendar : string)
    (start_yr end_yr start_yr' end_yr' : Z) (months months' : list Z)
    (inds inds' : list nat) :
  incl months months' ->
  start_yr' <= start_yr -> end_yr <= end_yr' ->
  _get_time num2date time units calendar start_yr end_yr months
    (PyStr "only") = Ok (Inds inds) ->
  _get_time num2date time units calendar start_yr' end_yr' months'
    (PyStr "only") = Ok (Inds inds') ->
  incl inds inds'.
Proof.
  intros Hm Hs He. unfold _get_time.
  destruct (num2date time units (lower calendar)) as [dates | e];
    [| discriminate].
  cbn [bind eqb]. change (String.eqb "only" "only") with true. cbv iota.
  intros H H'. injection H as <-. injection H' as <-.
  intros i Hi.
  apply (in_selected_inds (selected start_yr end_yr months)) in Hi.
  apply (in_selected_inds (selected start_yr' end_yr' months')).
  destruct Hi as [d [Hn Hsel]]. exists d. split; [assumption |].
  apply selected_spec in Hsel. apply selected_spec.
  destruct Hsel as [Hy Hmo]. split; [lia | now apply Hm].
Qed.

End Queries.

Lemma get_time_empty_query_witness :
  _get_time months_since_year0 [23772; 23778] "months since 0000-01" "noleap"
    1990 1981 [1; 2; 12] (PyStr "only")
  = Ok (Inds [])
  /\ _get_time months_since_year0 [23772; 23778] "months since 0000-01"
       "noleap" 1990 1981 [1; 2; 12] (PyBool true)
     = Raise IndexError.
Proof.
  assert ([1; 2; 12] = [] \/ 1981 < 1990) as Hq by (right; lia).
  split.
  - apply (proj1 (get_time_empty_query Z months_since_year0 [23772; 23778]
                    "months since 0000-01" "noleap" 1990 1981 [1; 2; 12]
                    (PyStr "only") Hq)
             [mkdate 1981 1; mkdate 1981 7]).
    reflexivity.
  - apply (proj1 (get_time_empty_query Z months_since_year0 [23772; 23778]
                    "months since 0000-01" "noleap" 1990 1981 [1; 2; 12]
                    (PyBool true) Hq)
             [mkdate 1981 1; mkdate 1981 7]).
    reflexivity.
Defined.

Lemma get_time_monotone_witness : incl [0%nat] [0%nat; 1%nat].
Proof.
  apply (get_time_monotone Z months_since_year0 [23772; 23778; 24000]
           "months since 0000-01" "noleap" 1981 1981 1981 1990 [1] [1; 7]).
  - intros x Hx. cbn in *. intuition auto.
  - lia.
  - lia.
  - reflexivity.
  - reflexivity.
Defined.

(** ** Year labels tell ranges apart *)

Lemma yr_label_pair (y0 y1 : Z) :
  _yr_label (PyTuple [y0; y1])
  = Ok (if y0 =? y1 then format_04d y0
        else format_04d y0 ++ "-" ++ format_04d y1).
Proof. cbn. destruct (y0 =? y1); reflexivity. Qed.

Lemma ok_inj {A : Type} (a b : A) : Ok a = Ok b -> a = b.
Proof. intros H. now injection H. Qed.

Lemma four_digits_not_range (y y0 y1 : Z) :
  four_digits y <> four_digits y0 ++ "-" ++ four_digits y1.
Proof. unfold four_digits. cbn [append]. intros H. discriminate H. Qed.

(** With years of up to four digits, two pairs of years that get the
    same label are the same pair. *)
Theorem yr_label_injective (y0 y1 z0 z1 : Z) (label : string) :
  0 <= y0 <= 9999 -> 0 <= y1 <= 9999 ->
  0 <= z0 <= 9999 -> 0 <= z1 <= 9999 ->
  _yr_label (PyTuple [y0; y1]) = Ok label ->
  _yr_label (PyTuple [z0; z1]) = Ok label ->
  y0 = z0 /\ y1 = z1.
Proof.
  intros Hy0 Hy1 Hz0 Hz1. rewrite !yr_label_pair.
  rewrite !format_04d_four_digits by assumption.
  destruct (Z.eqb_spec y0 y1) as [<- | Hy], (Z.eqb_spec z0 z1) as [<- | Hz];
    intros H H'; pose proof (ok_inj _ _ (eq_trans H (eq_sym H'))) as E;
    clear H H'.
  - apply four_digits_inj in E; try assumption. split; congruence.
  - exfalso. now apply four_digits_not_range in E.
  - exfalso. symmetry in E. now apply four_digits_not_range in E.
  - pose proof (four_digits_app_inj _ _ _ _ E) as E0.
    apply four_digits_inj in E0; try assumption. subst z0.
    apply str_app_cancel_l in E. apply (str_app_cancel_l "-") in E.
    apply four_digits_inj in E; try assumption. split; congruence.
Qed.

Lemma yr_label_injective_witness : 1981 = 1981 /\ 2010 = 2010.
Proof.
  apply (yr_label_injective 1981 2010 1981 2010 "1981-2010");
    try reflexivity; lia.
Defined.

(** ** Provenance labels *)

Lemma prefix_double (c x : ascii) (s : string) :
  prefix (String c (String c "")) (String x s)
  = Ascii.eqb x c && starts_with c s.
Proof.
  simpl. destruct (ascii_dec c x) as [E | E].
  - subst x. rewrite Ascii.eqb_refl. destruct s as [| y tl]; simpl;
      [reflexivity |].
    destruct (ascii_dec c y) as [E | E].
    + subst y. rewrite Ascii.eqb_refl. destruct tl; reflexivity.
    + symmetry. apply Ascii.eqb_neq. congruence.
  - replace (Ascii.eqb x c) with false; [reflexivity |].
    symmetry. apply Ascii.eqb_neq. congruence.
Qed.

(** Replacing a doubled separator leaves a string without one as it
    is. *)
Lemma replace_no_double (c : ascii) (s : string) :
  no_double c s = true ->
  replace s (String c (String c "")) (String c "") = s.
Proof.
  unfold replace. induction s as [| x tl IH]; [reflexivity |].
  intros H. cbn [no_double] in H. apply andb_true_iff in H.
  destruct H as [H1 H2].
  cbn [replace_from]. fold (prefix (String c (String c "")) (String x tl)).
  rewrite prefix_double. apply negb_true_iff in H1. rewrite H1.
  f_equal. now apply IH.
Qed.

(** A doubled separator at the head is replaced by one, and the
    replacement goes on behind it. *)
Lemma replace_double_head (c : ascii) (s : string) :
  replace (String c (String c s)) (String c (String c "")) (String c "")
  = String c (replace s (String c (String c "")) (String c "")).
Proof.
  unfold replace. cbn [replace_from].
  fold (prefix (String c (String c "")) (String c (String c s))).
  rewrite prefix_double. cbn [starts_with]. rewrite Ascii.eqb_refl.
  reflexivity.
Qed.

Lemma replace_other_head (c x : ascii) (s : string) :
  x <> c ->
  replace (String x s) (String c (String c "")) (String c "")
  = String x (replace s (String c (String c "")) (String c "")).
Proof.
  intros Hne. unfold replace. cbn [replace_from].
  fold (prefix (String c (String c "")) (String x s)).
  rewrite prefix_double.
  replace (Ascii.eqb x c) with false
    by (symmetry; now apply Ascii.eqb_neq).
  reflexivity.
Qed.

Lemma starts_with_app (c : ascii) (a b : string) :
  a <> "" -> starts_with c (a ++ b) = starts_with c a.
Proof. destruct a; [contradiction | reflexivity]. Qed.

Lemma ends_with_app (c : ascii) (a b : string) :
  b <> "" -> ends_with c (a ++ b) = ends_with c b.
Proof.
  intros Hb. induction a as [| x a IH]; [reflexivity |].
  cbn [append ends_with]. rewrite IH.
  destruct (a ++ b) eqn:E; [| reflexivity].
  destruct a, b; try discriminate E. contradiction.
Qed.

(** Joining with one separator keeps a string free of doubled
    separators when neither side brings a second one. *)
Lemma no_double_sep (c : ascii) (a b : string) :
  no_double c a = true -> ends_with c a = false ->
  no_double c b = true -> starts_with c b = false ->
  no_double c (a ++ String c b) = true.
Proof.
  intros Ha Hea Hb Hsb. induction a as [| x a IH].
  - cbn. now rewrite Hsb, Hb, andb_false_r.
  - cbn [no_double] in Ha. apply andb_true_iff in Ha.
    destruct Ha as [Ha1 Ha2].
    cbn [append no_double]. apply andb_true_iff. split.
    + destruct a as [| y a].
      * cbn in Hea. cbn. now rewrite Hea.
      * exact Ha1.
    + apply IH; [assumption |].
      destruct a; [reflexivity | exact Hea].
Qed.

Lemma tidy_inv (c : ascii) (s : string) :
  tidy c s = true ->
  s <> "" /\ starts_with c s = false /\ ends_with c s = false
  /\ no_double c s = true.
Proof.
  unfold tidy. rewrite !andb_true_iff, !negb_true_iff.
  intros [[[H1 H2] H3] H4]. apply String.eqb_neq in H1. auto.
Qed.

(** From components that are not empty and bring no separator of their
    own at either end, nor a doubled one, [_data_in_label] builds
    from_, the interval, the time type and, when a vertical type is
    given, that too, each joined by one underscore; a vertical type of
    [False] or of the empty string is left out. *)
Theorem data_in_label_tidy (intvl_in dtype_in_time : string) :
  tidy "_" intvl_in = true ->
  tidy "_" dtype_in_time = true ->
  _data_in_label intvl_in dtype_in_time (PyBool false)
  = Ok ("from_" ++ intvl_in ++ "_" ++ dtype_in_time)
  /\ _data_in_label intvl_in dtype_in_time (PyStr "")
     = Ok ("from_" ++ intvl_in ++ "_" ++ dtype_in_time)
  /\ forall vert, tidy "_" vert = true ->
       _data_in_label intvl_in dtype_in_time (PyStr vert)
       = Ok ("from_" ++ intvl_in ++ "_" ++ dtype_in_time ++ "_" ++ vert).
Proof.
  intros Ha Hb.
  apply tidy_inv in Ha. destruct Ha as [Ha0 [Ha1 [Ha2 Ha3]]].
  apply tidy_inv in Hb. destruct Hb as [Hb0 [Hb1 [Hb2 Hb3]]].
  assert (no_double "_" (intvl_in ++ "_" ++ dtype_in_time) = true) as Hab
    by (now apply no_double_sep).
  assert (replace (join "_" ["from"; intvl_in; dtype_in_time]) "__" "_"
          = "from_" ++ intvl_in ++ "_" ++ dtype_in_time) as Hlbl.
  { apply replace_no_double. cbn [join append no_double starts_with].
    rewrite (starts_with_app "_" intvl_in _ Ha0), Ha1. exact Hab. }
  unfold _data_in_label. rewrite Hlbl.
  split; [reflexivity | split; [reflexivity |]].
  intros vert Hv.
  apply tidy_inv in Hv. destruct Hv as [Hv0 [Hv1 [Hv2 Hv3]]].
  assert (truthy (PyStr vert) = true) as ->
    by (cbn; apply negb_true_iff; now apply String.eqb_neq).
  f_equal. cbn [join].
  replace (("from_" ++ intvl_in ++ "_" ++ dtype_in_time) ++ "_" ++ vert)
    with ("from_" ++ (intvl_in ++ "_" ++ dtype_in_time) ++ "_" ++ vert)
    by (cbn [append]; now rewrite !str_app_assoc).
  rewrite replace_no_double.
  - cbn [append]. now rewrite !str_app_assoc.
  - cbn [append no_double starts_with].
    rewrite starts_with_app by (destruct intvl_in; [contradiction | discriminate]).
    rewrite starts_with_app by assumption. rewrite Ha1.
    cbn [Ascii.eqb Bool.eqb andb negb].
    apply no_double_sep; try assumption.
    change ("_" ++ dtype_in_time) with (String "_" dtype_in_time).
    rewrite ends_with_app by discriminate.
    destruct dtype_in_time; [contradiction | exact Hb2].
Qed.

Lemma data_in_label_tidy_witness :
  _data_in_label "monthly" "ts" (PyBool false) = Ok "from_monthly_ts"
  /\ _data_in_label "3hr" "inst" (PyStr "sigma") = Ok "from_3hr_inst_sigma".
Proof.
  split.
  - apply (proj1 (data_in_label_tidy "monthly" "ts" eq_refl eq_refl)).
  - apply (proj2 (proj2 (data_in_label_tidy "3hr" "inst" eq_refl eq_refl))
             "sigma" eq_refl).
Defined.

(** An empty component leaves two underscores in a row, which the
    replacement turns into one: without an interval the label is
    from_ and the time type.  An empty time type leaves the underscore
    at the end. *)
Theorem data_in_label_empty_component (intvl_in dtype_in_time : string) :
  (no_double "_" dtype_in_time = true ->
   _data_in_label "" dtype_in_time (PyBool false)
   = Ok ("from_" ++ dtype_in_time))
  /\ (tidy "_" intvl_in = true ->
      _data_in_label intvl_in "" (PyBool false)
      = Ok ("from_" ++ intvl_in ++ "_")).
Proof.
  split.
  - intros Hb. unfold _data_in_label. cbn [truthy join append].
    f_equal.
    rewrite !replace_other_head by discriminate.
    rewrite replace_double_head, replace_no_double by assumption.
    reflexivity.
  - intros Ha. apply tidy_inv in Ha. destruct Ha as [Ha0 [Ha1 [Ha2 Ha3]]].
    unfold _data_in_label. cbn [truthy join]. f_equal.
    apply replace_no_double. cbn [append no_double starts_with].
    rewrite (starts_with_app "_" intvl_in _ Ha0), Ha1.
    cbn [Ascii.eqb Bool.eqb andb negb].
    now apply no_double_sep.
Qed.

Lemma data_in_label_empty_component_witness :
  _data_in_label "" "av" (PyBool false) = Ok "from_av"
  /\ _data_in_label "monthly" "" (PyBool false) = Ok "from_monthly_".
Proof.
  split.
  - apply (proj1 (data_in_label_empty_component "" "av") eq_refl).
  - apply (proj2 (data_in_label_empty_component "monthly" "") eq_refl).
Defined.

Lemma lacks_app (c : ascii) (a b : string) :
  lacks c (a ++ b) = lacks c a && lacks c b.
Proof.
  induction a as [| x a IH]; [reflexivity |].
  cbn [append lacks]. now rewrite IH, andb_assoc.
Qed.

Lemma lacks_replicate (c x : ascii) (n : nat) :
  x <> c -> lacks c (replicate n x) = true.
Proof.
  intros Hne. induction n as [| n IH]; [reflexivity |].
  cbn [replicate lacks]. rewrite IH.
  replace (Ascii.eqb x c) with false; [reflexivity |].
  symmetry. now apply Ascii.eqb_neq.
Qed.

Lemma lacks_tidy (c : ascii) (s : string) :
  lacks c s = true -> s <> "" -> tidy c s = true.
Proof.
  intros Hl Hne. unfold tidy.
  assert (no_double c s = true /\ starts_with c s = false
          /\ ends_with c s = false) as [H1 [H2 H3]].
  { clear Hne. induction s as [| x tl IH]; [auto |].
    cbn [lacks] in Hl. apply andb_true_iff in Hl. destruct Hl as [Hx Htl].
    apply negb_true_iff in Hx. destruct (IH Htl) as [I1 [I2 I3]].
    cbn [no_double starts_with ends_with]. rewrite Hx, I1.
    repeat split. destruct tl; [reflexivity | exact I3]. }
  rewrite H1, H2, H3.
  replace (String.eqb s "") with false; [reflexivity |].
  symmetry. now apply String.eqb_neq.
Qed.

Lemma lacks_dot_uint (d : Decimal.uint) :
  lacks "." (NilEmpty.string_of_uint d) = true.
Proof. induction d; cbn; auto. Qed.

Lemma lacks_dot_str (n : Z) : lacks "." (str n) = true /\ str n <> "".
Proof.
  unfold str.
  destruct (Z.to_int n) as [d | d]; cbn [NilZero.string_of_int].
  - destruct d; (split; [try reflexivity; apply lacks_dot_uint
                        | cbn; discriminate]).
  - split; [| discriminate]. cbn [lacks].
    destruct d; try reflexivity; apply lacks_dot_uint.
Qed.

Lemma format_0d_tidy (w : nat) (n : Z) : tidy "." (format_0d w n) = true.
Proof.
  destruct (lacks_dot_str (Z.abs n)) as [Hl Hne].
  unfold format_0d. destruct (n <? 0).
  - apply lacks_tidy; [| discriminate].
    cbn [lacks]. rewrite lacks_app, Hl, lacks_replicate by discriminate.
    reflexivity.
  - apply lacks_tidy.
    + rewrite lacks_app, Hl, lacks_replicate by discriminate. reflexivity.
    + destruct (replicate _ _); [exact Hne | discriminate].
Qed.

(** Every label [_time_label] returns is free of dots. *)
Lemma time_label_tidy (intvl : val) (label : string) (value : list Z) :
  _time_label intvl true = Ok (LabelValue label value) ->
  tidy "." label = true.
Proof.
  intros H. apply time_label_inv in H.
  destruct H as [[m [_ [-> _]]] | [Hin _]]; [apply format_0d_tidy |].
  revert Hin. rewrite labels_unfold. cbn [In].
  intros H;
    repeat (destruct H as [H | H]; [injection H as <- _; reflexivity |]).
  contradiction.
Qed.

Lemma replace_joined (c : ascii) (a b : string) :
  tidy c a = true -> no_double c b = true -> starts_with c b = false ->
  replace (a ++ String c b) (String c (String c "")) (String c "")
  = a ++ String c b.
Proof.
  intros Ha Hb Hs. apply tidy_inv in Ha. destruct Ha as [_ [_ [Ha2 Ha3]]].
  apply replace_no_double. now apply no_double_sep.
Qed.

(** [_data_out_label] composes [_time_label] with the joining: for an
    interval that resolves, and a time type and vertical type that
    bring no dot of their own at either end nor a doubled one, the
    label is the interval label, the time type and the vertical type,
    if given, each joined by one dot.  An interval that does not
    resolve makes the call fail as [_time_label] does. *)
Theorem data_out_label_compose (time_intvl : val) (dtype_time : string) :
  (forall label value,
     _time_label time_intvl true = Ok (LabelValue label value) ->
     tidy "." dtype_time = true ->
     _data_out_label time_intvl dtype_time (PyBool false)
     = Ok (label ++ "." ++ dtype_time)
     /\ forall vert, tidy "." vert = true ->
          _data_out_label time_intvl dtype_time (PyStr vert)
          = Ok (label ++ "." ++ dtype_time ++ "." ++ vert))
  /\ (forall e dtype_vert,
        _time_label time_intvl false = Raise e ->
        _data_out_label time_intvl dtype_time dtype_vert = Raise e).
Proof.
  split.
  - intros label value Hl Ht.
    pose proof (time_label_tidy _ _ _ Hl) as Hlab.
    assert (_time_label time_intvl false = Ok (LabelOnly label)) as Hlo
      by (apply time_label_label_only; now exists value).
    pose proof (tidy_inv _ _ Ht) as [Ht0 [Ht1 [Ht2 Ht3]]].
    assert (replace (join "." [label; dtype_time]) ".." "."
            = label ++ "." ++ dtype_time) as Hlbl
      by (now apply replace_joined).
    unfold _data_out_label. rewrite Hlo. cbn [bind]. rewrite Hlbl.
    split; [reflexivity |].
    intros vert Hv. pose proof (tidy_inv _ _ Hv) as [Hv0 [Hv1 [Hv2 Hv3]]].
    assert (truthy (PyStr vert) = true) as ->
      by (cbn; apply negb_true_iff; now apply String.eqb_neq).
    f_equal. cbn [join].
    replace ((label ++ "." ++ dtype_time) ++ "." ++ vert)
      with (label ++ String "." (dtype_time ++ String "." vert))
      by (now rewrite !str_app_assoc).
    apply replace_joined; [assumption | |].
    + now apply no_double_sep.
    + now rewrite starts_with_app.
  - intros e dtype_vert He. unfold _data_out_label. now rewrite He.
Qed.

Lemma data_out_label_compose_witness :
  _data_out_label (PyTuple [12; 1; 2]) "av" (PyBool false) = Ok "djf.av"
  /\ _data_out_label (PyInt 7) "reg.ts" (PyStr "vert_int")
     = Ok "07.reg.ts.vert_int"
  /\ _data_out_label (PyStr "annual") "av" (PyBool false)
     = Raise UnboundLocalError.
Proof.
  split; [| split].
  - apply (proj1 (proj1 (data_out_label_compose (PyTuple [12; 1; 2]) "av")
                    "djf" [1; 2; 12] eq_refl eq_refl)).
  - apply (proj2 (proj1 (data_out_label_compose (PyInt 7) "reg.ts")
                    "07" [7] eq_refl eq_refl) "vert_int" eq_refl).
  - apply (proj2 (data_out_label_compose (PyStr "annual") "av")
             UnboundLocalError (PyBool false) eq_refl).
Defined.

(** ** Staging archived files *)

Lemma split_on_cons (c : ascii) (s : string) :
  exists h t, split_on c s = h :: t.
Proof.
  destruct s as [| x tl]; cbn [split_on]; [now exists "", [] |].
  destruct (Ascii.eqb x c); [now eexists; eexists |].
  destruct (split_on c tl); eexists; eexists; reflexivity.
Qed.

(** Joining the pieces of a split with the separator gives the string
    back. *)
Lemma join_split_on (c : ascii) (s : string) :
  join (String c "") (split_on c s) = s.
Proof.
  induction s as [| x tl IH]; [reflexivity |].
  cbn [split_on]. destruct (split_on_cons c tl) as [h [t E]].
  rewrite E in *.
  destruct (Ascii.eqb_spec x c) as [-> | _].
  - change (join (String c "") ("" :: h :: t))
      with (String c (join (String c "") (h :: t))).
    now rewrite IH.
  - assert (join (String c "") (String x h :: t)
            = String x (join (String c "") (h :: t))) as ->
      by (destruct t; reflexivity).
    now rewrite IH.
Qed.

Lemma prefix_app (a b : string) : prefix a (a ++ b) = true.
Proof.
  induction a as [| x a IH]; [destruct b; reflexivity |].
  cbn. destruct (ascii_dec x x); [exact IH | contradiction].
Qed.

Lemma prefix_drop (a f : string) :
  prefix a f = true -> a ++ drop (String.length a) f = f.
Proof.
  revert f. induction a as [| x a IH]; intros f H; [reflexivity |].
  destruct f as [| y f]; [discriminate H |].
  cbn in H. destruct (ascii_dec x y) as [-> | _]; [| discriminate H].
  cbn. f_equal. now apply IH.
Qed.

Lemma find_from_prefix (sub s : string) (i : nat) :
  prefix sub s = true -> find_from sub s i = Some i.
Proof. intros H. destruct s; cbn [find_from]; now rewrite H. Qed.

Lemma prefix_length (a s : string) :
  prefix a s = true -> (String.length a <= String.length s)%nat.
Proof.
  revert s. induction a as [| x a IH]; intros s H; [cbn; lia |].
  destruct s as [| y s]; [discriminate H |].
  cbn in H. destruct (ascii_dec x y); [| discriminate H].
  apply IH in H. cbn. lia.
Qed.

Lemma find_from_longer (sub s : string) (i : nat) :
  (String.length s < String.length sub)%nat -> find_from sub s i = None.
Proof.
  revert i. induction s as [| x tl IH]; intros i H.
  - cbn [find_from]. destruct (prefix sub "") eqn:E; [| reflexivity].
    apply prefix_length in E. lia.
  - cbn [find_from]. destruct (prefix sub (String x tl)) eqn:E.
    + apply prefix_length in E. lia.
    + apply IH. cbn in H. lia.
Qed.

Lemma length_app (a b : string) :
  String.length (a ++ b) = (String.length a + String.length b)%nat.
Proof. induction a as [| x a IH]; [reflexivity | cbn; now rewrite IH]. Qed.

(** A path with more than three components lies under the archive
    root derived from it; from a shorter path the root derived is the
    whole path with a slash, which the path does not contain. *)
Lemma arch_loc_of_cases (file : string) :
  ((3 < List.length (split_on "/" file))%nat ->
   prefix (Python2.arch_loc_of file) file = true)
  /\ ((List.length (split_on "/" file) <= 3)%nat ->
      Python2.arch_loc_of file = file ++ "/").
Proof.
  unfold Python2.arch_loc_of. pose proof (join_split_on "/" file) as J.
  split; intros H.
  - destruct (split_on "/" file) as [| p1 [| p2 [| p3 [| p4 r]]]];
      cbn in H; try lia.
    rewrite <- J.
    replace (join "/" (p1 :: p2 :: p3 :: p4 :: r))
      with ((join "/" (firstn 3 (p1 :: p2 :: p3 :: p4 :: r)) ++ "/")
              ++ join "/" (p4 :: r)).
    + apply prefix_app.
    + cbn [firstn join]. now rewrite !str_app_assoc.
  - rewrite firstn_all2 by assumption. now rewrite J.
Qed.

Lemma partition_after_cases (f sep : string) :
  sep <> "" ->
  exists r,
    partition_after f sep = Ok r
    /\ (prefix sep f = true -> sep ++ r = f)
    /\ ((forall k, ~ occurs_at f sep k) -> r = "").
Proof.
  intros Hne. unfold partition_after.
  destruct sep as [| c sep']; [contradiction |].
  destruct (find_from (String c sep') f 0) as [i |] eqn:E.
  - eexists. split; [reflexivity |]. split.
    + intros Hp. rewrite (find_from_prefix _ _ 0 Hp) in E.
      injection E as <-. now apply prefix_drop.
    + intros Hno. apply find_from_some in E.
      destruct E as [k [_ [Ho _]]]. exfalso. exact (Hno k Ho).
  - exists "". split; [reflexivity |]. split; [| reflexivity].
    intros Hp. rewrite (find_from_prefix _ _ 0 Hp) in E. discriminate.
Qed.

Lemma map_result_forall2 {A B : Type} (f : A -> result B) (R : A -> B -> Prop)
    (l : list A) :
  (forall x, exists y, f x = Ok y /\ R x y) ->
  exists ys, map_result f l = Ok ys /\ Forall2 R l ys.
Proof.
  intros H. induction l as [| x tl [ys [E F]]].
  - exists []. split; [reflexivity | constructor].
  - destruct (H x) as [y [Ey Ry]]. exists (y :: ys).
    cbn [map_result]. rewrite Ey, E. split; [reflexivity |].
    now constructor.
Qed.

(** On Python 2, where [string.join] exists, [hsmget_nc] fails on an
    empty list of files.  Otherwise the command it runs names the archive root derived from the first
    file and, for every file, a path relative to it: for a file under
    the root, the root followed by that path is the file again; a file
    that does not contain the root is passed as the empty string.
    The first file is under its own root when it has more than three
    components, and is itself passed as the empty string when it has
    fewer. *)
Theorem hsmget_nc_relative_paths (user first : string) (rest : list string) :
  Python2.hsmget_nc_args user [] = Raise IndexError
  /\ exists files,
       Python2.hsmget_nc_args user (first :: rest)
       = Ok (["hsmget"; "-a"; Python2.arch_loc_of first; "-p";
              ("/work/" ++ user)%string; "-w"; ("/ptmp/" ++ user)%string]
               ++ files ++ ["-q"])%list
       /\ Forall2
            (fun f r =>
               (prefix (Python2.arch_loc_of first) f = true ->
                Python2.arch_loc_of first ++ r = f)
               /\ ((forall k, ~ occurs_at f (Python2.arch_loc_of first) k) ->
                   r = ""))
            (first :: rest) files
       /\ ((3 < List.length (split_on "/" first))%nat ->
           exists r, hd_error files = Some r
                     /\ Python2.arch_loc_of first ++ r = first)
       /\ ((List.length (split_on "/" first) <= 3)%nat ->
           hd_error files = Some "").
Proof.
  split; [reflexivity |].
  assert (Python2.arch_loc_of first <> "") as Hne.
  { unfold Python2.arch_loc_of. intros H. apply (f_equal String.length) in H.
    rewrite length_app in H. cbn in H. lia. }
  destruct (map_result_forall2
              (fun f => partition_after f (Python2.arch_loc_of first))
              (fun f r =>
                 (prefix (Python2.arch_loc_of first) f = true ->
                  Python2.arch_loc_of first ++ r = f)
                 /\ ((forall k, ~ occurs_at f (Python2.arch_loc_of first) k) ->
                     r = ""))
              (first :: rest)) as [files [E F]].
  { intros f. destruct (partition_after_cases f _ Hne) as [r [Er Hr]].
    now exists r. }
  exists files. unfold Python2.hsmget_nc_args. rewrite E. cbn [bind].
  split; [reflexivity |]. split; [exact F |].
  inversion F as [| f r l l' [Hpre Hno] _]; subst. cbn [hd_error].
  destruct (arch_loc_of_cases first) as [Hlong Hshort].
  split.
  - intros H. exists r. split; [reflexivity |]. apply Hpre. now apply Hlong.
  - intros H. f_equal. apply Hno. intros k Ho.
    refine (find_from_none (Python2.arch_loc_of first) first 0 _ k Ho).
    apply find_from_longer. rewrite (Hshort H), length_app. cbn. lia.
Qed.

Lemma hsmget_nc_relative_paths_witness :
  exists r,
    Python2.arch_loc_of "/archive/usr/pp/x.nc" ++ r = "/archive/usr/pp/x.nc".
Proof.
  destruct (hsmget_nc_relative_paths "usr" "/archive/usr/pp/x.nc" [])
    as [_ [files [_ [_ [H _]]]]].
  assert (3 < List.length (split_on "/" "/archive/usr/pp/x.nc"))%nat as Hl
    by (cbn; lia).
  destruct (H Hl) as [r [_ Hr]]. now exists r.
Defined.

(** ** Month numbers that are no months *)

Lemma existsb_valid_months (m : Z) (months : list Z) :
  1 <= m <= 12 ->
  existsb (Z.eqb m) (filter (fun x => in_range x 1 13) months)
  = existsb (Z.eqb m) months.
Proof.
  intros Hm. induction months as [| x tl IH]; [reflexivity |].
  cbn [filter existsb]. unfold in_range at 1.
  destruct (Z.eqb_spec m x) as [<- | Hne].
  - replace ((1 <=? m) && (m <? 13)) with true
      by (symmetry; apply andb_true_iff; split;
          [apply Z.leb_le | apply Z.ltb_lt]; lia).
    cbn [existsb]. now rewrite Z.eqb_refl.
  - destruct ((1 <=? x) && (x <? 13)); cbn [existsb orb]; [| exact IH].
    destruct (Z.eqb_spec m x); [contradiction | exact IH].
Qed.

Section ValidMonths.

Variable T : Type.
Variable num2date : list T -> string -> string -> result (list date).

(** As long as the decoded timestamps have months 1..12, the numbers
    outside 1..12 among the requested months select nothing: leaving
    them out changes no result.  So the indices 13 and up that
    [_month_indices] returns for a season that wraps around the end of
    the year select no timestamp. *)
Theorem get_time_month_numbers (time : list T) (units calendar : string)
    (start_yr end_yr : Z) (months : list Z) (indices : val)
    (dates : list date) :
  num2date time units (lower calendar) = Ok dates ->
  (forall d, In d dates -> 1 <= month d <= 12) ->
  _get_time num2date time units calendar start_yr end_yr
    (filter (fun m => in_range m 1 13) months) indices
  = _get_time num2date time units calendar start_yr end_yr months indices.
Proof.
  intros Hdec Hvalid. unfold _get_time. rewrite Hdec. cbn [bind].
  assert (filter (fun p : nat * date =>
                    selected start_yr end_yr
                      (filter (fun m => in_range m 1 13) months) (snd p))
            (enumerate dates)
          = filter (fun p => selected start_yr end_yr months (snd p))
              (enumerate dates)) as ->; [| reflexivity].
  apply filter_ext_in. intros [i d] Hin. cbn [snd].
  apply in_enumerate_from in Hin. destruct Hin as [_ Hn].
  apply nth_error_In in Hn. unfold selected.
  now rewrite existsb_valid_months by (apply Hvalid; assumption).
Qed.

End ValidMonths.

Lemma get_time_month_numbers_witness :
  _get_time months_since_year0 [23772; 23773; 23783]
    "months since 0000-01" "noleap" 1981 1981
    (filter (fun m => in_range m 1 13) [12; 13; 14]) (PyStr "only")
  = _get_time months_since_year0 [23772; 23773; 23783]
      "months since 0000-01" "noleap" 1981 1981 [12; 13; 14] (PyStr "only").
Proof.
  apply (get_time_month_numbers Z months_since_year0 [23772; 23773; 23783]
           "months since 0000-01" "noleap" 1981 1981 [12; 13; 14]
           (PyStr "only") [mkdate 1981 1; mkdate 1981 2; mkdate 1981 12]).
  - reflexivity.
  - intros d Hd. cbn in Hd.
    destruct Hd as [<- | [<- | [<- | []]]]; cbn; lia.
Defined.

(** ** Worked instances *)

Lemma time_label_order_irrelevant_witness :
  time_label_bind (rev labels) (PyTuple [12; 1; 2])
  = time_label_bind labels (PyTuple [12; 1; 2]).
Proof.
  apply (time_label_order_irrelevant (rev labels) (PyTuple [12; 1; 2])).
  apply Permutation_rev.
Defined.

(** Which exception an unsupported interval raises.  Apart from
    single-element lists and tuples, an interval that is not a
    supported one raises [TypeError] when it is [None], a bool or an
    integer, none of which [set] can iterate, and [UnboundLocalError]
    when it is a string, a list or a tuple, which match no entry and
    leave the label unbound. *)
Theorem time_label_failure_kinds (intvl : val) (rv : bool) :
  ~ resolvable intvl ->
  (forall m, intvl <> PyList [m] /\ intvl <> PyTuple [m]) ->
  _time_label intvl rv
  = Raise (match intvl with
           | PyNone | PyBool _ | PyInt _ => TypeError
           | PyStr _ | PyList _ | PyTuple _ => UnboundLocalError
           end).
Proof.
  intros Hnr Hone.
  destruct intvl as [| b | z | s | l | l].
  - reflexivity.
  - reflexivity.
  - unfold _time_label, time_label_bind.
    destruct (in_range z 1 13) eqn:E; [| reflexivity].
    exfalso. apply Hnr. left. exists z.
    unfold in_range in E. apply andb_true_iff in E. destruct E as [E1 E2].
    apply Z.leb_le in E1. apply Z.ltb_lt in E2.
    split; [lia | now left].
  - apply time_label_unknown_string.
    intros code vals Hin ->. apply Hnr.
    right; left. exists code, vals. split; [assumption | now left].
  - apply time_label_unknown_months.
    + intros m ->. destruct (Hone m) as [H _]. now apply H.
    + intros code vals Hin Hs. apply Hnr.
      right; left. exists code, vals. split; [assumption |].
      right. exists l. split; [assumption | now left].
  - apply time_label_unknown_months.
    + intros m ->. destruct (Hone m) as [_ H]. now apply H.
    + intros code vals Hin Hs. apply Hnr.
      right; left. exists code, vals. split; [assumption |].
      right. exists l. split; [assumption | now right].
Qed.

Lemma time_label_failure_kinds_witness :
  _time_label (PyInt 0) true = Raise TypeError
  /\ _time_label (PyStr "winter") false = Raise UnboundLocalError
  /\ _time_label (PyList []) true = Raise UnboundLocalError.
Proof.
  assert (~ resolvable (PyInt 0)) as R1.
  { intros [[m [Hm H]] | [[code [vals [Hin H]]] | [H | H]]];
      try discriminate H.
    - destruct H as [H | [H | H]]; try discriminate H.
      injection H as <-. lia.
    - destruct H as [H | [l [_ [H | H]]]]; discriminate H. }
  assert (~ resolvable (PyStr "winter")) as R2.
  { intros [[m [Hm H]] | [[code [vals [Hin H]]] | [H | H]]];
      try discriminate H.
    - destruct H as [H | [H | H]]; discriminate H.
    - destruct H as [H | [l [_ [H | H]]]]; try discriminate H.
      injection H as <-. revert Hin. rewrite labels_unfold. cbn [In].
      intros Hin.
      repeat (destruct Hin as [Hin | Hin]; [discriminate Hin |]).
      contradiction. }
  assert (~ resolvable (PyList [])) as R3.
  { intros [[m [Hm H]] | [[code [vals [Hin H]]] | [H | H]]];
      try discriminate H.
    - destruct H as [H | [H | H]]; discriminate H.
    - destruct H as [H | [l [Hs [H | H]]]]; try discriminate H.
      injection H as <-.
      destruct (labels_two_months code vals Hin) as [a [_ [_ [Ha _]]]].
      apply Hs in Ha. contradiction. }
  refine (conj (time_label_failure_kinds (PyInt 0) true R1 _)
            (conj (time_label_failure_kinds (PyStr "winter") false R2 _)
                  (time_label_failure_kinds (PyList []) true R3 _)));
    intros m; split; discriminate.
Defined.
